(** * maxentdesinfo: the external-interaction pipeline of [hydratorpipeline.py]

    A shallow embedding of the two batch jobs of [src/hydratorpipeline.py]:
    the extractor [externaltweets] with its directory walker [getfiles], and
    the hydrator [harvest_external_data] with its walker [harvestfiles].

    Python's effects are modelled by a state-and-exception monad over a
    [world] (the files on disk and the text printed on standard output).
    An exception leaves the world as it was when it was raised: effects that
    happened before it are kept, which is what the walkers' bare [except:]
    clauses observe.

    What lives outside the repository (the csv module, [os.scandir], the
    twarc client, [json.dumps], the [str] of a float) is a field of the
    class [Externals].

    Conventions of the model:
    - a file is a path (compared as text) with its decoded text; opening a
      file for writing always succeeds, opening a missing file for reading
      raises [FileNotFoundError]; the statements about calls that raise are
      about the exceptions of reading, scanning, hydrating and dividing;
    - a set is written in the order of [elements]; Python fixes no order,
      and no statement depends on one;
    - a str is a [string]; the code only compares lengths with 0;
    - a float is a binary64 primitive float; the division of two ints and
      [round] are the correctly rounded operations of CPython;
    - the listing of a directory does not change during a walk: a walker
      lists every directory once, before it writes into it;
    - the progress bar of tqdm, which goes to the terminal, is left out. *)

From Stdlib Require Import ZArith String Ascii PrimFloat FloatOps SpecFloat.
From stdpp Require Import gmap strings list pretty.

Local Open Scope Z_scope.

(** ** Python values, exceptions and results *)

Inductive exn :=
  | KeyError (key : string)
  | TypeError
  | ZeroDivisionError
  | OverflowError
  | FileNotFoundError (path : string)
  | OtherError (msg : string).

Inductive result (A : Type) :=
  | Ok (a : A)
  | Raise (e : exn).
Arguments Ok {A} a.
Arguments Raise {A} e.

(** The values a function of the pipeline can hand back to its caller. *)
#[local] Unset Elimination Schemes.
Inductive value :=
  | VNone
  | VInt (z : Z)
  | VFloat (x : float)
  | VStr (s : string)
  | VSet (X : gset string)
  | VList (l : list value)
  | VTuple (l : list value).
#[local] Set Elimination Schemes.

(** A lazy, finite sequence that either ends or raises while it is being
    consumed (a csv reader, twarc's [hydrate] generator). *)
Inductive stream (A : Type) :=
  | SNil
  | SCons (a : A) (s : stream A)
  | SRaise (e : exn).
Arguments SNil {A}.
Arguments SCons {A} a s.
Arguments SRaise {A} e.

Fixpoint stream_items {A} (s : stream A) : list A :=
  match s with
  | SNil => []
  | SCons a s' => a :: stream_items s'
  | SRaise _ => []
  end.

Fixpoint stream_of_list {A} (l : list A) : stream A :=
  match l with
  | [] => SNil
  | a :: l' => SCons a (stream_of_list l')
  end.

(** ** The world and the monad *)

Record world := World {
  files : gmap string string;   (* path -> text content *)
  stdout : list string          (* one entry per [print] call *)
}.

Definition Py (A : Type) : Type := world -> world * result A.

Definition ret {A} (a : A) : Py A := fun w => (w, Ok a).

Definition raise {A} (e : exn) : Py A := fun w => (w, Raise e).

Definition bind {A B} (m : Py A) (k : A -> Py B) : Py B :=
  fun w =>
    match m w with
    | (w', Ok a) => k a w'
    | (w', Raise e) => (w', Raise e)
    end.

Notation "x <- m ;; k" := (bind m (fun x => k))
  (at level 100, m at next level, right associativity).
Notation "m ;;; k" := (bind m (fun _ => k))
  (at level 100, right associativity).

Definition lift {A} (r : result A) : Py A := fun w => (w, r).

(** [try: m except: ...] : the exception is caught, the world is kept. *)
Definition try {A} (m : Py A) : Py (result A) :=
  fun w => let '(w', r) := m w in (w', Ok r).

Definition print (s : string) : Py unit :=
  fun w => (World (files w) (stdout w ++ [s]), Ok tt).

(** [open(path)] for reading, consumed to the end. *)
Definition open_read (path : string) : Py string :=
  fun w =>
    match files w !! path with
    | Some content => (w, Ok content)
    | None => (w, Raise (FileNotFoundError path))
    end.

(** [open(path, 'w')]: the file is created or truncated. *)
Definition open_write (path : string) : Py unit :=
  fun w => (World (<[path := ""%string]> (files w)) (stdout w), Ok tt).

(** A write to a file opened by [open_write]. *)
Definition write (path text : string) : Py unit :=
  fun w =>
    let old := default ""%string (files w !! path) in
    (World (<[path := old +:+ text]> (files w)) (stdout w), Ok tt).

(** ** Strings *)

Definition nl : string := String "010"%char "".

Definition slash : ascii := "/"%char.
Definition dot : ascii := "."%char.

(** [len(s)] *)
Definition py_strlen (s : string) : Z := Z.of_nat (String.length s).

Fixpoint rfind_from (c : ascii) (s : string) (i last : Z) : Z :=
  match s with
  | EmptyString => last
  | String a s' => rfind_from c s' (i + 1) (if Ascii.eqb a c then i else last)
  end.

(** [s.rfind(c)] for a one-character [c]: the last index, or -1. *)
Definition rfind (c : ascii) (s : string) : Z := rfind_from c s 0 (-1).

(** [s[:i]] and [s[i:]] for [0 <= i]. *)
Definition take_str (i : Z) (s : string) : string :=
  String.substring 0 (Z.to_nat i) s.
Definition drop_str (i : Z) (s : string) : string :=
  String.substring (Z.to_nat i) (String.length s - Z.to_nat i)%nat s.

Fixpoint all_char (c : ascii) (s : string) : bool :=
  match s with
  | EmptyString => true
  | String a s' => Ascii.eqb a c && all_char c s'
  end.

(** [s.rstrip(c)] *)
Fixpoint rstrip (c : ascii) (s : string) : string :=
  match s with
  | EmptyString => EmptyString
  | String a s' => if all_char c s then EmptyString else String a (rstrip c s')
  end.

Definition startswith (c : ascii) (s : string) : bool :=
  match s with
  | String a _ => Ascii.eqb a c
  | EmptyString => false
  end.

Fixpoint endswith (c : ascii) (s : string) : bool :=
  match s with
  | EmptyString => false
  | String a EmptyString => Ascii.eqb a c
  | String _ s' => endswith c s'
  end.

Fixpoint is_prefix (p s : string) : bool :=
  match p, s with
  | EmptyString, _ => true
  | String a p', String b s' => Ascii.eqb a b && is_prefix p' s'
  | String _ _, EmptyString => false
  end.

(** [sub in s] *)
Fixpoint contains (sub s : string) : bool :=
  is_prefix sub s ||
  match s with
  | EmptyString => false
  | String _ s' => contains sub s'
  end.

(** ** [os.path] (posixpath) *)

(** [os.path.split(p)] *)
Definition os_path_split (p : string) : string * string :=
  let i := rfind slash p + 1 in
  let head := take_str i p in
  let tail := drop_str i p in
  let head :=
    if negb (String.eqb head "") && negb (all_char slash head)
    then rstrip slash head else head in
  (head, tail).

(** [os.path.join(a, b)] *)
Definition os_path_join (a b : string) : string :=
  if startswith slash b then b
  else if String.eqb a "" || endswith slash a then a +:+ b
  else a +:+ String slash "" +:+ b.

(** The loop of [genericpath._splitext] that skips the leading dots of the
    file name: [true] when some character of [p[i:dotIndex]] is not a dot. *)
Fixpoint has_non_dot (p : string) (n : nat) : bool :=
  match n, p with
  | O, _ => false
  | S n', String a p' => negb (Ascii.eqb a dot) || has_non_dot p' n'
  | S _, EmptyString => true
  end.

(** [os.path.splitext(p)] *)
Definition os_path_splitext (p : string) : string * string :=
  let sepIndex := rfind slash p in
  let dotIndex := rfind dot p in
  if (sepIndex <? dotIndex)
     && has_non_dot (drop_str (sepIndex + 1) p) (Z.to_nat (dotIndex - (sepIndex + 1)))
  then (take_str dotIndex p, drop_str dotIndex p)
  else (p, ""%string).

(** ** Numbers *)

(** An integer as a binary float with exponent 0 (exact, not yet rounded). *)
Definition Z2SF (z : Z) : spec_float :=
  match z with
  | Z0 => S754_zero false
  | Zpos p => S754_finite false p 0
  | Zneg p => S754_finite true p 0
  end.

(** [a / b] on Python ints: the correctly rounded quotient as a binary64
    float; [ZeroDivisionError] when [b] is 0, [OverflowError] when the
    quotient is too large for a float. *)
Definition int_truediv (a b : Z) : result float :=
  if b =? 0 then Raise ZeroDivisionError
  else
    let q := SF2Prim (SFdiv prec emax (Z2SF a) (Z2SF b)) in
    if is_infinity q then Raise OverflowError else Ok q.

(** [x * n] for a float [x] and an int [n] that a float holds exactly
    (here the literal 100). *)
Definition float_mul_int (x : float) (n : Z) : float :=
  PrimFloat.mul x (SF2Prim (Z2SF n)).

(** Round the rational [num / den] ([den > 0]) to the nearest integer, ties
    to even. *)
Definition round_half_even (num den : Z) : Z :=
  let q := num / den in
  let r := num mod den in
  match 2 * r ?= den with
  | Lt => q
  | Gt => q + 1
  | Eq => if Z.even q then q else q + 1
  end.

(** [round(x, ndigits)] for a float and [ndigits >= 0]: CPython rounds the
    exact value of [x] to [ndigits] decimals (ties to even) and returns the
    float nearest to that decimal; zeros, infinities and nan are returned
    as they are. *)
Definition py_round (x : float) (ndigits : nat) : float :=
  match Prim2SF x with
  | S754_finite s m e =>
      let p := 10 ^ Z.of_nat ndigits in
      let n :=
        if 0 <=? e then Zpos m * 2 ^ e * p
        else round_half_even (Zpos m * p) (2 ^ (- e)) in
      if n =? 0 then SF2Prim (S754_zero s)
      else SF2Prim (SFdiv prec emax (Z2SF (if s then - n else n)) (Z2SF p))
  | _ => x
  end.

(** [str(n)] for an int. *)
Definition str_int (n : Z) : string := pretty n.

Fixpoint spaces (n : nat) : string :=
  match n with
  | O => EmptyString
  | S n' => String " "%char (spaces n')
  end.

(** The format field [{:>10}] applied to an int: right-aligned in a field
    of [width] characters. *)
Definition rjust (width : nat) (s : string) : string :=
  spaces (width - String.length s) +:+ s.

(** [s.find(sub)]: the first index of [sub] in [s], or -1. *)
Fixpoint find_from (sub s : string) (i : Z) : Z :=
  if is_prefix sub s then i
  else
    match s with
    | EmptyString => -1
    | String _ s' => find_from sub s' (i + 1)
    end.

Definition find (sub s : string) : Z := find_from sub s 0.

Definition cr : ascii := "013"%char.
Definition lf : ascii := "010"%char.

(** Iterating over a file opened in text mode: the lines of its content,
    each one with its end of line, every kind of end of line read as a
    line feed (universal newlines). *)
Fixpoint readlines_from (s cur : string) : list string :=
  match s with
  | EmptyString => if String.eqb cur "" then [] else [cur]
  | String c s' =>
      if Ascii.eqb c lf then (cur +:+ nl) :: readlines_from s' ""
      else if Ascii.eqb c cr then
        match s' with
        | String c' s'' =>
            if Ascii.eqb c' lf then (cur +:+ nl) :: readlines_from s'' ""
            else (cur +:+ nl) :: readlines_from s' ""
        | EmptyString => [cur +:+ nl]
        end
      else readlines_from s' (cur +:+ String c "")
  end.

Definition readlines (content : string) : list string :=
  readlines_from content "".

(** ** The pure part: results *)

Definition rbind {A B} (r : result A) (k : A -> result B) : result B :=
  match r with
  | Ok a => k a
  | Raise e => Raise e
  end.

Notation "'let?' x := r 'in' k" := (rbind r (fun x => k))
  (at level 10, x pattern, r at level 100, k at level 200).

(** ** Rows and directory entries *)

(** A row of [csv.DictReader]: a dict from the field names of the header to
    the cell of the row, a str, or [None] where the row is shorter than the
    header. *)
Abbreviation row := (gmap string (option string)).
Abbreviation idset := (gset string).

(** [row[key]] *)
Definition getitem (r : row) (key : string) : result (option string) :=
  match r !! key with
  | Some v => Ok v
  | None => Raise (KeyError key)
  end.

(** [len(v)] for a cell. *)
Definition py_len (v : option string) : result Z :=
  match v with
  | Some s => Ok (py_strlen s)
  | None => Raise TypeError
  end.

(** [X.add(v)]. The sets hold str only: a [None] cell does not reach [add],
    since [len(None)] has raised in the condition that guards it. *)
Definition set_add (v : option string) (X : idset) : idset :=
  match v with
  | Some s => {[ s ]} ∪ X
  | None => X
  end.

Record DirEntry := { name : string; is_dir : bool }.

(** [str(f)] for a [DirEntry]. The name is shown as it is (the escapes of
    [repr] neither add nor remove an underscore or a letter). *)
Definition str_DirEntry (f : DirEntry) : string :=
  "<DirEntry '" +:+ name f +:+ "'>".

(** ** What the pipeline calls outside the repository *)

Class Externals := {
  (** [csv.DictReader(f)] on the content of the file. *)
  DictReader : string -> stream row;
  (** the text [csv.writer(f, delimiter=',', lineterminator=os.linesep)]
      writes for [writerow([msg])], the line terminator included. *)
  writerow : string -> string;
  (** [os.scandir(path)] *)
  scandir : string -> result (list DirEntry);
  (** the records of the hydration service *)
  tweet : Type;
  (** [Twarc(CONSUMER_KEY, ..., app_auth=True)] *)
  Twarc : result unit;
  (** [t.hydrate(lines)] *)
  hydrate : list string -> stream tweet;
  json_dumps : tweet -> string;
  (** [str(x)] for a float, as [format] prints it. *)
  str_float : float -> string
}.

Section Pipeline.

Context {E : Externals}.

(** *** [externaltweets] *)

(** The body of [for row in reader:]. *)
Definition scan_row (r : row) (acc : idset * idset * idset)
  : result (idset * idset * idset) :=
  let '(retweets, replies, quotes) := acc in
  (* external retweets *)
  let? a := getitem r "retweet_userid" in
  let? la := py_len a in
  let? b := getitem r "retweet_tweetid" in
  let? lb := py_len b in
  let? retweets :=
    if (la =? 0) && (0 <? lb)
    then (let? v := getitem r "retweet_tweetid" in Ok (set_add v retweets))
    else Ok retweets in
  (* external replies *)
  let? a := getitem r "in_reply_to_userid" in
  let? la := py_len a in
  let? b := getitem r "in_reply_to_tweetid" in
  let? lb := py_len b in
  let? replies :=
    if (0 <=? la) && (0 <? lb)
    then (let? v := getitem r "in_reply_to_tweetid" in Ok (set_add v replies))
    else Ok replies in
  (* external quotes *)
  let? c := getitem r "quoted_tweet_tweetid" in
  let? lc := py_len c in
  let? quotes :=
    if 0 <? lc
    then (let? v := getitem r "quoted_tweet_tweetid" in Ok (set_add v quotes))
    else Ok quotes in
  Ok (retweets, replies, quotes).

(** [for row in reader: ...] *)
Fixpoint scan (reader : stream row) (acc : idset * idset * idset)
  : result (idset * idset * idset) :=
  match reader with
  | SNil => Ok acc
  | SCons r reader' => let? acc' := scan_row r acc in scan reader' acc'
  | SRaise e => Raise e
  end.

(** [for msg in X: outwriter.writerow([msg])] *)
Fixpoint write_rows (path : string) (msgs : list string) : Py unit :=
  match msgs with
  | [] => ret tt
  | msg :: msgs' => write path (writerow msg) ;;; write_rows path msgs'
  end.

(** The three output paths, after the defaults have been filled in. *)
Definition outpaths (path : string) (outpath_rt outpath_rp outpath_qt : option string)
  : string * string * string :=
  let outfolder := fst (os_path_split path) in
  let fname := snd (os_path_split path) in
  let outname := fname in
  let outpath_qt := default (os_path_join outfolder (outname +:+ "_quotes")) outpath_qt in
  let outpath_rt := default (os_path_join outfolder (outname +:+ "_retweets")) outpath_rt in
  let outpath_rp := default (os_path_join outfolder (outname +:+ "_replies")) outpath_rp in
  (outpath_rt, outpath_rp, outpath_qt).

Definition summary (fname : string) (retweets replies quotes : idset) : string :=
  "Result for file: " +:+ fname +:+ nl
  +:+ rjust 10 (str_int (Z.of_nat (size retweets))) +:+ " external retweets" +:+ nl
  +:+ rjust 10 (str_int (Z.of_nat (size replies))) +:+ " external replies" +:+ nl
  +:+ rjust 10 (str_int (Z.of_nat (size quotes))) +:+ " external quotes" +:+ nl.

(** The local [ind = fname.find('tweet')] of the source is never used. *)
Definition externaltweets (path : string)
    (outpath_rt outpath_rp outpath_qt : option string) : Py value :=
  let fname := snd (os_path_split path) in
  let '(outpath_rt, outpath_rp, outpath_qt) :=
    outpaths path outpath_rt outpath_rp outpath_qt in
  (* processing part *)
  content <- open_read path ;;
  sets <- lift (scan (DictReader content) (∅, ∅, ∅)) ;;
  let '(retweets, replies, quotes) := sets in
  open_write outpath_rt ;;;
  write_rows outpath_rt (elements retweets) ;;;
  open_write outpath_rp ;;;
  write_rows outpath_rp (elements replies) ;;;
  open_write outpath_qt ;;;
  write_rows outpath_qt (elements quotes) ;;;
  print (summary fname retweets replies quotes) ;;;
  ret VNone.

(** *** [getfiles] *)

Definition entry_path (dir : string) (f : DirEntry) : string :=
  os_path_join dir (name f).

(** [[f.path for f in os.scandir(datafolder) if f.is_dir()]] *)
Definition subfolders_of (datafolder : string) : result (list string) :=
  let? entries := scandir datafolder in
  Ok (map (entry_path datafolder) (filter (fun f => is_dir f = true) entries)).

Definition is_tweets_csv (dir : string) (f : DirEntry) : bool :=
  (0 <? find "_tweets" (str_DirEntry f))
  && String.eqb (snd (os_path_splitext (entry_path dir f))) ".csv".

Definition tweets_files (subfolder : string) : result (list string) :=
  let? entries := scandir subfolder in
  Ok (map (entry_path subfolder)
        (filter (fun f => is_tweets_csv subfolder f = true) entries)).

(** [for f in files: ... try: method(f) except: ...] *)
Fixpoint getfiles_files (method : string -> Py value) (fs : list string)
    (problems : list string) : Py (list string) :=
  match fs with
  | [] => ret problems
  | f :: fs' =>
      print ("working on:  " +:+ f) ;;;
      r <- try (method f) ;;
      match r with
      | Ok _ => getfiles_files method fs' problems
      | Raise _ =>
          print ("problem with " +:+ f) ;;;
          getfiles_files method fs' (problems ++ [f])
      end
  end.

(** [for subfolder in subfolders: ...] *)
Fixpoint getfiles_subfolders (method : string -> Py value)
    (subfolders : list string) (problems : list string) : Py (list string) :=
  match subfolders with
  | [] => ret problems
  | subfolder :: subfolders' =>
      fs <- lift (tweets_files subfolder) ;;
      problems' <- getfiles_files method fs problems ;;
      getfiles_subfolders method subfolders' problems'
  end.

(** [for p in problems: print(p)] *)
Fixpoint print_all (problems : list string) : Py unit :=
  match problems with
  | [] => ret tt
  | p :: problems' => print p ;;; print_all problems'
  end.

Definition problems_header : string :=
  "The following files generated an error when parsing:".

Definition getfiles (datafolder : string) (method : string -> Py value) : Py value :=
  let problems := [] in
  subfolders <- lift (subfolders_of datafolder) ;;
  problems <- getfiles_subfolders method subfolders problems ;;
  print problems_header ;;;
  print_all problems ;;;
  ret VNone.

(** [method=externaltweets], the default of [getfiles]. *)
Definition default_method (f : string) : Py value :=
  externaltweets f None None None.

(** *** [harvest_external_data] *)

(** [for tweet in t.hydrate(...): print(json.dumps(tweet), file=f);
    collected += 1]. The progress bar of tqdm goes to the terminal and is
    left out. *)
Fixpoint hydrate_loop (outpath : string) (tweets : stream tweet) (collected : Z)
  : Py Z :=
  match tweets with
  | SNil => ret collected
  | SCons t tweets' =>
      write outpath (json_dumps t +:+ nl) ;;;
      hydrate_loop outpath tweets' (collected + 1)
  | SRaise e => raise e
  end.

(** [round(collected/num_lines*100, ndigits=2)] *)
Definition recovered (collected num_lines : Z) : result float :=
  let? q := int_truediv collected num_lines in
  Ok (py_round (float_mul_int q 100) 2).

Definition report_line (num_lines collected : Z) (percent : float) : string :=
  "Total: " +:+ str_int num_lines +:+ ", collected " +:+ str_int collected
  +:+ ", recovered %: " +:+ str_float percent.

Definition harvest_external_data (path : string) : Py value :=
  let collected := 0 in
  (* setup connection *)
  _ <- lift Twarc ;;
  (* estimate total length *)
  content <- open_read path ;;
  let num_lines := Z.of_nat (length (readlines content)) in
  (* determine outpath *)
  let outpath := path +:+ ".jsonl" in
  (* actual hydrating *)
  print ("working on " +:+ path) ;;;
  open_write outpath ;;;
  content' <- open_read path ;;
  collected <- hydrate_loop outpath (hydrate (readlines content')) collected ;;
  (* print out difference *)
  open_write (path +:+ ".log") ;;;
  percent <- lift (recovered collected num_lines) ;;
  write (path +:+ ".log") (report_line num_lines collected percent +:+ nl) ;;;
  ret VNone.

(** *** [harvestfiles] *)

Definition is_external_list (dir : string) (f : DirEntry) : bool :=
  String.eqb (snd (os_path_splitext (entry_path dir f))) ".csv_retweets"
  || String.eqb (snd (os_path_splitext (entry_path dir f))) ".csv_replies".

Definition external_files (subfolder : string) : result (list string) :=
  let? entries := scandir subfolder in
  Ok (map (entry_path subfolder)
        (filter (fun f => is_external_list subfolder f = true) entries)).

(** [for f in files: ... try: harvest_external_data(f) except: ...] *)
Fixpoint harvestfiles_files (fs : list string) (problems : list string)
  : Py (list string) :=
  match fs with
  | [] => ret problems
  | f :: fs' =>
      print ("working on:  " +:+ f) ;;;
      r <- try (harvest_external_data f) ;;
      match r with
      | Ok _ => harvestfiles_files fs' problems
      | Raise _ => harvestfiles_files fs' (problems ++ [f])
      end
  end.

Fixpoint harvestfiles_subfolders (subfolders : list string)
    (problems : list string) : Py (list string) :=
  match subfolders with
  | [] => ret problems
  | subfolder :: subfolders' =>
      fs <- lift (external_files subfolder) ;;
      problems' <- harvestfiles_files fs problems ;;
      harvestfiles_subfolders subfolders' problems'
  end.

Definition harvestfiles (datafolder : string) : Py value :=
  let problems := [] in
  subfolders <- lift (subfolders_of datafolder) ;;
  problems <- harvestfiles_subfolders subfolders problems ;;
  print problems_header ;;;
  print_all problems ;;;
  ret VNone.

End Pipeline.

(** ** A concrete installation

    One instance of the externals and a small data folder, used to run the
    model: [data/A] holds three [_tweets] files, of which the second cannot
    be parsed, and three lists of identifiers, of which the second is
    empty. *)

Module Demo.

Definition mkrow (retweet_userid retweet_tweetid in_reply_to_userid
    in_reply_to_tweetid quoted_tweet_tweetid : string) : row :=
  <["retweet_userid" := Some retweet_userid]>
    (<["retweet_tweetid" := Some retweet_tweetid]>
      (<["in_reply_to_userid" := Some in_reply_to_userid]>
        (<["in_reply_to_tweetid" := Some in_reply_to_tweetid]>
          (<["quoted_tweet_tweetid" := Some quoted_tweet_tweetid]> ∅)))).

Definition rows : list row :=
  [ mkrow "" "111" "" "" "";
    mkrow "" "111" "" "" "";
    mkrow "u9" "112" "" "" "";
    mkrow "" "" "" "222" "";
    mkrow "" "" "u5" "223" "";
    mkrow "" "" "" "" "333" ].

(** A row that is shorter than the header: the last cells are [None]. *)
Definition short_row : row :=
  <["retweet_userid" := Some ""%string]>
    (<["retweet_tweetid" := Some "114"%string]>
      (<["in_reply_to_userid" := None]>
        (<["in_reply_to_tweetid" := None]>
          (<["quoted_tweet_tweetid" := None]> ∅)))).

Definition reader (content : string) : stream row :=
  if String.eqb content "good" then stream_of_list rows
  else if String.eqb content "nul" then
    SCons (mkrow "" "113" "" "" "") (SRaise (OtherError "line contains NUL"))
  else if String.eqb content "short" then SCons short_row SNil
  else SNil.

Definition listing (path : string) : result (list DirEntry) :=
  if String.eqb path "data" then
    Ok [ {| name := "A"; is_dir := true |};
         {| name := "notes_tweets.csv"; is_dir := false |} ]
  else if String.eqb path "data/A" then
    Ok [ {| name := "a_tweets.csv"; is_dir := false |};
         {| name := "b_tweets.csv"; is_dir := false |};
         {| name := "c_tweets.csv"; is_dir := false |};
         {| name := "users.csv"; is_dir := false |};
         {| name := "a_tweets.csv_retweets"; is_dir := false |};
         {| name := "b_tweets.csv_replies"; is_dir := false |};
         {| name := "c_tweets.csv_replies"; is_dir := false |};
         {| name := "c_tweets.csv_quotes"; is_dir := false |} ]
  else Raise (FileNotFoundError path).

Definition externals : Externals := {|
  DictReader := reader;
  writerow := fun msg => msg +:+ nl;
  scandir := listing;
  tweet := string;
  Twarc := Ok tt;
  hydrate := fun lines => stream_of_list (map (rstrip lf) (take 7 lines));
  json_dumps := fun t => "{id: " +:+ t +:+ "}";
  str_float := fun x => if PrimFloat.eqb x 70 then "70.0"%string else "?"%string
|}.

Definition ten_ids : string :=
  "1" +:+ nl +:+ "2" +:+ nl +:+ "3" +:+ nl +:+ "4" +:+ nl +:+ "5" +:+ nl
  +:+ "6" +:+ nl +:+ "7" +:+ nl +:+ "8" +:+ nl +:+ "9" +:+ nl +:+ "10" +:+ nl.

Definition disk : gmap string string :=
  list_to_map
    [ ("data/A/a_tweets.csv", "good");
      ("data/A/b_tweets.csv", "nul");
      ("data/A/c_tweets.csv", "good");
      ("data/A/a_tweets.csv_retweets", ten_ids);
      ("data/A/b_tweets.csv_replies", "");
      ("data/A/c_tweets.csv_replies", ten_ids) ]%string.

Definition w0 : world := World disk [].

(** The world after the extractor has run on [data/A/a_tweets.csv]. *)
Definition extracted : world :=
  World
    (<["data/A/a_tweets.csv_quotes" := "333" +:+ nl]>
      (<["data/A/a_tweets.csv_replies" := "223" +:+ nl +:+ "222" +:+ nl]>
        (<["data/A/a_tweets.csv_retweets" := "111" +:+ nl]> disk)))
    [ "Result for file: a_tweets.csv" +:+ nl
      +:+ "         1 external retweets" +:+ nl
      +:+ "         2 external replies" +:+ nl
      +:+ "         1 external quotes" +:+ nl ]%string.

(** The world after the hydrator has run on [data/A/a_tweets.csv_retweets]. *)
Definition hydrated : world :=
  World
    (<["data/A/a_tweets.csv_retweets.log"
       := "Total: 10, collected 7, recovered %: 70.0" +:+ nl]>
      (<["data/A/a_tweets.csv_retweets.jsonl"
         := "{id: 1}" +:+ nl +:+ "{id: 2}" +:+ nl +:+ "{id: 3}" +:+ nl
            +:+ "{id: 4}" +:+ nl +:+ "{id: 5}" +:+ nl +:+ "{id: 6}" +:+ nl
            +:+ "{id: 7}" +:+ nl]> disk))
    [ "working on data/A/a_tweets.csv_retweets" ]%string.

(** The worlds after the two walkers have run on [data]. *)
Definition extracted_all : world :=
  fst (getfiles (E := externals) "data" (default_method (E := externals)) w0).

Definition hydrated_all : world :=
  fst (harvestfiles (E := externals) "data" w0).

End Demo.

(** ** Vocabulary of the statements *)

(** The cell [key] of the row [r] is the str [s]. *)
Definition cell (r : row) (key s : string) : Prop := r !! key = Some (Some s).

(** The row is an external retweet of [id]: no retweeted user, and the
    retweeted tweet is [id]. *)
Definition external_retweet (r : row) (id : string) : Prop :=
  cell r "retweet_userid" "" /\ cell r "retweet_tweetid" id /\ id <> ""%string.

Definition reply_to (r : row) (id : string) : Prop :=
  cell r "in_reply_to_tweetid" id /\ id <> ""%string.

Definition quote_of (r : row) (id : string) : Prop :=
  cell r "quoted_tweet_tweetid" id /\ id <> ""%string.

Definition fields : list string :=
  [ "retweet_userid"; "retweet_tweetid"; "in_reply_to_userid";
    "in_reply_to_tweetid"; "quoted_tweet_tweetid" ]%string.

(** Every field the extractor reads is present in the row, as a str. *)
Definition complete (r : row) : Prop :=
  Forall (fun key => exists s, cell r key s) fields.

(** The text of an output file of the extractor: one [writerow] per
    identifier. *)
Fixpoint rows_text `{Externals} (msgs : list string) : string :=
  match msgs with
  | [] => ""
  | msg :: msgs' => writerow msg +:+ rows_text msgs'
  end.

(** The text of the records file of the hydrator. *)
Fixpoint records_text `{Externals} (tweets : list tweet) : string :=
  match tweets with
  | [] => ""
  | t :: tweets' => json_dumps t +:+ nl +:+ records_text tweets'
  end.




(** How the consumption of a stream ends: normally, or with an exception. *)
Fixpoint stream_end {A} (s : stream A) : option exn :=
  match s with
  | SNil => None
  | SCons _ s' => stream_end s'
  | SRaise e => Some e
  end.

(** The world after a walker has announced the file it turns to, and after
    [getfiles] has reported a problem with it. *)
Definition announced (w : world) (f : string) : world :=
  World (files w) (stdout w ++ ["working on:  " +:+ f]).

Definition reported (w : world) (f : string) : world :=
  World (files w) (stdout w ++ ["problem with " +:+ f]).

(** One call of the per-file function by a walker: the file, the world it
    ran in, and how it ended. *)
Record visit := Visit {
  visited : string;
  before : world;
  outcome : result value
}.

Definition raised {A} (r : result A) : bool :=
  match r with
  | Ok _ => false
  | Raise _ => true
  end.

(** The files of the visits that raised, in the order of the visits. *)
Definition failures (trace : list visit) : list string :=
  map visited (filter (fun v => raised (outcome v) = true) trace).

(** The visit is a run of [method]. *)
Definition run_of (method : string -> Py value) (v : visit) : Prop :=
  snd (method (visited v) (before v)) = outcome v.

(** The world a visit leaves to the next one. In [getfiles] it is the world
    the call of [method] left, with the report of the problem when the call
    raised; in [harvestfiles], which reports nothing, the world the call of
    the hydrator left. *)
Definition left_by_getfiles (method : string -> Py value) (v : visit) : world :=
  let w' := fst (method (visited v) (before v)) in
  if raised (outcome v) then reported w' (visited v) else w'.

Definition left_by_harvestfiles `{Externals} (v : visit) : world :=
  fst (harvest_external_data (visited v) (before v)).

(** The visits follow one another from the world [w] to the world [w_end]:
    each one runs in the world the one before it left, once its file has
    been announced, and [w_end] is the world the last one left. *)
Fixpoint linked (left_by : visit -> world) (w : world) (trace : list visit)
    (w_end : world) : Prop :=
  match trace with
  | [] => w_end = w
  | v :: trace' =>
      before v = announced w (visited v)
      /\ linked left_by (left_by v) trace' w_end
  end.

(** All the files a walker visits: those [select] finds in each of the
    subfolders, in the order of the subfolders. *)
Fixpoint selected (select : string -> result (list string))
    (subfolders : list string) : result (list string) :=
  match subfolders with
  | [] => Ok []
  | subfolder :: subfolders' =>
      let? fs := select subfolder in
      let? fs' := selected select subfolders' in
      Ok (fs ++ fs')
  end.

(** ** The script [hydrate.py] *)

Section Script.

Context {E : Externals}.

(** The two statements of [hydrate.py]: the walk over [./demodata], then
    one more call of the hydrator, outside any [try]. *)
Definition hydrate_py : Py value :=
  let datapath := "./demodata"%string in
  harvestfiles datapath ;;;
  let datapath := "./demodata/dataset_A/externaltweets.csv_replies"%string in
  harvest_external_data datapath ;;;
  ret VNone.

End Script.

(** A folder for the script: [dataset_A] holds the list of replies the
    script names, and the list is empty. *)
Module DemoScript.

Definition listing (path : string) : result (list DirEntry) :=
  if String.eqb path "./demodata" then
    Ok [ {| name := "dataset_A"; is_dir := true |} ]
  else if String.eqb path "./demodata/dataset_A" then
    Ok [ {| name := "externaltweets.csv"; is_dir := false |};
         {| name := "externaltweets.csv_replies"; is_dir := false |} ]
  else Raise (FileNotFoundError path).

Definition externals : Externals := {|
  DictReader := Demo.reader;
  writerow := fun msg => msg +:+ nl;
  scandir := listing;
  tweet := string;
  Twarc := Ok tt;
  hydrate := fun lines => stream_of_list (map (rstrip lf) (take 7 lines));
  json_dumps := fun t => "{id: " +:+ t +:+ "}";
  str_float := fun x => if PrimFloat.eqb x 70 then "70.0"%string else "?"%string
|}.

Definition w0 : world :=
  World {[ "./demodata/dataset_A/externaltweets.csv_replies"%string := ""%string ]} [].

End DemoScript.

(** An installation whose hydration service gives nothing for a list of one
    identifier, and breaks off after two records for any other list. *)
Module DemoOutage.

Definition externals : Externals := {|
  DictReader := Demo.reader;
  writerow := fun msg => msg +:+ nl;
  scandir := Demo.listing;
  tweet := string;
  Twarc := Ok tt;
  hydrate := fun lines =>
    match lines with
    | [_] => SNil
    | _ => SCons "1"%string (SCons "2"%string (SRaise (OtherError "connection reset")))
    end;
  json_dumps := fun t => "{id: " +:+ t +:+ "}";
  str_float := fun x => if PrimFloat.eqb x 0 then "0.0"%string else "?"%string
|}.

Definition w0 : world :=
  World (<["one"%string := "1" +:+ nl]> Demo.disk) [].

End DemoOutage.

(** The rows of [Demo.rows] in another order, one of them three times. *)
Definition rows_shuffled : list row :=
  [ Demo.mkrow "" "" "" "" "333";
    Demo.mkrow "" "" "u5" "223" "";
    Demo.mkrow "" "111" "" "" "";
    Demo.mkrow "" "" "" "222" "";
    Demo.mkrow "" "" "u5" "223" "";
    Demo.mkrow "u9" "112" "" "" "";
    Demo.mkrow "" "" "u5" "223" "" ].

(** ** More vocabulary *)

(** The list of replies that the last statement of the script names. *)
Definition replies_list : string :=
  "./demodata/dataset_A/externaltweets.csv_replies".

(** [s.endswith(suffix)] *)
Definition ends_with (suffix s : string) : Prop :=
  exists stem, s = stem +:+ suffix.

Fixpoint has_char (c : ascii) (s : string) : bool :=
  match s with
  | EmptyString => false
  | String a s' => Ascii.eqb a c || has_char c s'
  end.


(** * Properties *)

(** ** The model on concrete inputs *)

Example split_ex1 : os_path_split "data/A/x_tweets.csv" = ("data/A", "x_tweets.csv")%string.
Proof. reflexivity. Qed.
Example split_ex2 : os_path_split "x.csv" = ("", "x.csv")%string.
Proof. reflexivity. Qed.
Example split_ex3 : os_path_split "/x.csv" = ("/", "x.csv")%string.
Proof. reflexivity. Qed.
Example split_ex4 : os_path_split "a//x.csv" = ("a", "x.csv")%string.
Proof. reflexivity. Qed.
Example join_ex1 : os_path_join "data/A" "x.csv_quotes" = "data/A/x.csv_quotes"%string.
Proof. reflexivity. Qed.
Example join_ex2 : os_path_join "" "x.csv_quotes" = "x.csv_quotes"%string.
Proof. reflexivity. Qed.
Example splitext_ex1 : os_path_splitext "d/a.b/x_tweets.csv" = ("d/a.b/x_tweets", ".csv")%string.
Proof. reflexivity. Qed.
Example splitext_ex2 : os_path_splitext "d/a.b/.csv" = ("d/a.b/.csv", "")%string.
Proof. reflexivity. Qed.
Example splitext_ex3 : os_path_splitext "d/x.csv_retweets" = ("d/x", ".csv_retweets")%string.
Proof. reflexivity. Qed.
Example splitext_ex4 : os_path_splitext "d/..x.csv.log" = ("d/..x.csv", ".log")%string.
Proof. reflexivity. Qed.
Example truediv_ex1 : int_truediv 7 10 = Ok (7 / 10)%float.
Proof. vm_compute. reflexivity. Qed.
Example truediv_ex2 : int_truediv 1 3 = Ok (1 / 3)%float.
Proof. vm_compute. reflexivity. Qed.
Example truediv_ex3 : int_truediv 0 0 = Raise ZeroDivisionError.
Proof. reflexivity. Qed.
Example round_ex1 : py_round 0x1.5666666666666p+1%float 2 = 0x1.55c28f5c28f5cp+1%float.
Proof. vm_compute. reflexivity. Qed.
Example round_ex2 : py_round 0.125%float 2 = 0x1.eb851eb851eb8p-4%float.
Proof. vm_compute. reflexivity. Qed.
Example round_ex3 : py_round 0.375%float 2 = 0x1.851eb851eb852p-2%float.
Proof. vm_compute. reflexivity. Qed.
Example round_ex4 : py_round (2 / 3 * 100)%float 2 = 0x1.0aae147ae147bp+6%float.
Proof. vm_compute. reflexivity. Qed.
Example round_ex5 : py_round (-0x1.0624dd2f1a9fcp-10)%float 2 = (-0)%float.
Proof. vm_compute. reflexivity. Qed.
Example round_ex6 : py_round 0x1.7e43c8800759cp+996%float 2 = 0x1.7e43c8800759cp+996%float.
Proof. vm_compute. reflexivity. Qed.
Example round_ex7 : py_round 70%float 2 = 70%float.
Proof. vm_compute. reflexivity. Qed.
Example rjust_ex : rjust 10 (str_int 42) = "        42"%string.
Proof. reflexivity. Qed.
Example readlines_ex1 : readlines Demo.ten_ids = map (fun s => s +:+ nl) ["1"; "2"; "3"; "4"; "5"; "6"; "7"; "8"; "9"; "10"]%string.
Proof. reflexivity. Qed.
Example readlines_ex2 : readlines ("a" +:+ String cr (String lf "b")) = ["a" +:+ nl; "b"]%string.
Proof. reflexivity. Qed.
Example scan_ex :
  scan (stream_of_list Demo.rows) (∅, ∅, ∅)
  = Ok ({[ "111" ]}, {[ "222"; "223" ]}, {[ "333" ]})%string.
Proof. vm_compute. reflexivity. Qed.
Example scan_short_ex :
  scan (Demo.reader "short") (∅, ∅, ∅) = Raise TypeError.
Proof. vm_compute. reflexivity. Qed.
Example externaltweets_ex :
  externaltweets (E := Demo.externals) "data/A/a_tweets.csv" None None None Demo.w0
  = (Demo.extracted, Ok VNone).
Proof. vm_compute. reflexivity. Qed.
Example harvest_external_data_ex :
  harvest_external_data (E := Demo.externals) "data/A/a_tweets.csv_retweets" Demo.w0
  = (Demo.hydrated, Ok VNone).
Proof. vm_compute. reflexivity. Qed.
Example getfiles_ex :
  let '(w, r) := getfiles (E := Demo.externals) "data"
                   (default_method (E := Demo.externals)) Demo.w0 in
  r = Ok VNone
  /\ drop 6 (stdout w) = [problems_header; "data/A/b_tweets.csv"]%string
  /\ files w !! "data/A/c_tweets.csv_retweets"%string = Some ("111" +:+ nl)%string
  /\ files w !! "data/A/b_tweets.csv_retweets"%string = None.
Proof. vm_compute. repeat split; reflexivity. Qed.
Example harvestfiles_ex :
  let '(w, r) := harvestfiles (E := Demo.externals) "data" Demo.w0 in
  r = Ok VNone
  /\ drop 6 (stdout w) = [problems_header; "data/A/b_tweets.csv_replies"]%string
  /\ files w !! "data/A/c_tweets.csv_replies.log"%string
     = Some ("Total: 10, collected 7, recovered %: 70.0" +:+ nl)%string.
Proof. vm_compute. repeat split; reflexivity. Qed.

(** ** Lengths *)

Lemma py_strlen_zero (s : string) : (py_strlen s =? 0) = true <-> s = ""%string.
Proof.
  unfold py_strlen. destruct s as [|c s]; simpl.
  - split; reflexivity.
  - split; discriminate.
Qed.

Lemma py_strlen_pos (s : string) : (0 <? py_strlen s) = true <-> s <> ""%string.
Proof.
  unfold py_strlen. destruct s as [|c s]; simpl.
  - split; [discriminate | congruence].
  - split; [discriminate | reflexivity].
Qed.

(** The check [len(...) >= 0] holds for every str. *)
Lemma py_strlen_nonneg (s : string) : (0 <=? py_strlen s) = true.
Proof. unfold py_strlen. apply Z.leb_le. lia. Qed.

(** ** The scan of the rows *)

Ltac split_ifs H :=
  repeat (match type of H with
          | context [if ?b then _ else _] => destruct b
          end; simpl in H).

Ltac read_cell H key v Hv :=
  destruct (_ !! key) as [[v|]|] eqn:Hv; simpl in H;
  try discriminate H; try (solve [split_ifs H; discriminate H]).

Lemma scan_row_inv (r : row) (rt rp qt rt' rp' qt' : idset) :
  scan_row r (rt, rp, qt) = Ok (rt', rp', qt') ->
  (forall id, id ∈ rt' <-> id ∈ rt \/ external_retweet r id)
  /\ (forall id, id ∈ rp' <-> id ∈ rp \/ reply_to r id)
  /\ (forall id, id ∈ qt' <-> id ∈ qt \/ quote_of r id)
  /\ complete r.
Proof.
  unfold scan_row, getitem, py_len, rbind. intros H.
  read_cell H "retweet_userid"%string a Ha.
  read_cell H "retweet_tweetid"%string b Hb.
  read_cell H "in_reply_to_userid"%string c Hc.
  read_cell H "in_reply_to_tweetid"%string d Hd.
  read_cell H "quoted_tweet_tweetid"%string e He.
  rewrite (py_strlen_nonneg c) in H. simpl in H.
  assert (Hcomplete : complete r).
  { unfold complete, fields, cell. repeat constructor; eauto. }
  unfold external_retweet, reply_to, quote_of, cell.
  destruct (py_strlen a =? 0) eqn:Ea;
    destruct (0 <? py_strlen b) eqn:Eb;
    destruct (0 <? py_strlen d) eqn:Ed;
    destruct (0 <? py_strlen e) eqn:Ee;
    simpl in H; injection H; intros <- <- <-; clear H;
    repeat match goal with
    | X : (py_strlen _ =? 0) = true |- _ => apply py_strlen_zero in X
    | X : (py_strlen ?s =? 0) = false |- _ =>
        assert (s <> ""%string) by
          (intros ->; discriminate X); clear X
    | X : (0 <? py_strlen _) = true |- _ => apply py_strlen_pos in X
    | X : (0 <? py_strlen ?s) = false |- _ =>
        assert (s = ""%string) by
          (destruct s; [reflexivity | discriminate X]); clear X
    end;
    subst; (split; [|split; [|split]]); try exact Hcomplete;
    intros id; rewrite ?elem_of_union, ?elem_of_singleton, ?Ha, ?Hb, ?Hd, ?He;
    intuition (subst; congruence).
Qed.

(** A successful scan has read the whole reader, and its sets are those it
    started from plus what the rows contribute. *)
Lemma scan_inv (reader : stream row) :
  forall rt rp qt rt' rp' qt',
  scan reader (rt, rp, qt) = Ok (rt', rp', qt') ->
  (forall id, id ∈ rt' <->
     id ∈ rt \/ exists r, r ∈ stream_items reader /\ external_retweet r id)
  /\ (forall id, id ∈ rp' <->
        id ∈ rp \/ exists r, r ∈ stream_items reader /\ reply_to r id)
  /\ (forall id, id ∈ qt' <->
        id ∈ qt \/ exists r, r ∈ stream_items reader /\ quote_of r id).
Proof.
  induction reader as [|r reader IH|e]; intros rt rp qt rt' rp' qt' H;
    cbn [scan] in H.
  - injection H as <- <- <-.
    simpl. (split; [|split]); intros id;
      (split; [auto | intros [?|(r & Hr & _)]; [assumption | inversion Hr]]).
  - destruct (scan_row r (rt, rp, qt)) as [[[rt1 rp1] qt1]|e] eqn:Hrow;
      unfold rbind in H; [|discriminate H].
    apply scan_row_inv in Hrow as (Hrt & Hrp & Hqt & _).
    apply IH in H as (Irt & Irp & Iqt).
    simpl. (split; [|split]); intros id;
      rewrite ?Irt, ?Irp, ?Iqt, ?Hrt, ?Hrp, ?Hqt;
      setoid_rewrite elem_of_cons;
      (split;
       [ intros [[?|?]|(r0 & ? & ?)]; eauto 6
       | intros [?|(r0 & [->|?] & ?)]; eauto 6 ]).
  - discriminate H.
Qed.

(** A row with all its fields is scanned without an exception. *)
Lemma scan_row_complete (r : row) (acc : idset * idset * idset) :
  complete r -> exists acc', scan_row r acc = Ok acc'.
Proof.
  unfold complete, fields, cell. intros Hc.
  repeat match goal with
  | X : Forall _ (_ :: _) |- _ => apply Forall_cons in X as [[? ?] X]
  end.
  destruct acc as [[rt rp] qt]. unfold scan_row, getitem, py_len, rbind.
  repeat match goal with
  | X : _ !! _ = Some _ |- _ => rewrite X; clear X
  end.
  repeat match goal with
  | |- context [if ?b then _ else _] => destruct b
  end; simpl; eauto.
Qed.

(** The scan of a reader that does not raise, over complete rows, returns
    its sets. *)
Lemma scan_complete (rows : list row) :
  Forall complete rows ->
  forall acc, exists acc', scan (stream_of_list rows) acc = Ok acc'.
Proof.
  induction 1 as [|r rows Hr _ IH]; intros acc; simpl.
  - eauto.
  - destruct (scan_row_complete r acc Hr) as [acc1 ->]. unfold rbind. apply IH.
Qed.

(** ** Strings *)

Lemma append_cons (c : ascii) (s t : string) :
  String c s +:+ t = String c (s +:+ t).
Proof. reflexivity. Qed.

Lemma append_nil_r (s : string) : s +:+ "" = s.
Proof.
  induction s as [|c s IH]; [reflexivity | rewrite append_cons, IH; reflexivity].
Qed.

Lemma append_assoc (s t u : string) : (s +:+ t) +:+ u = s +:+ (t +:+ u).
Proof.
  induction s as [|c s IH]; [reflexivity | rewrite !append_cons, IH; reflexivity].
Qed.

Lemma length_append (s t : string) :
  String.length (s +:+ t) = (String.length s + String.length t)%nat.
Proof.
  induction s as [|c s IH]; [reflexivity | rewrite append_cons; simpl; rewrite IH; reflexivity].
Qed.

(** A path with a suffix added is another path. *)
Lemma append_neq (s t : string) : t <> ""%string -> s +:+ t <> s.
Proof.
  intros Ht Heq. apply (f_equal String.length) in Heq.
  rewrite length_append in Heq. destruct t; [congruence | simpl in Heq; lia].
Qed.

Lemma append_inj_r (s t u : string) : s +:+ t = s +:+ u -> t = u.
Proof. apply String.app_inj. Qed.

Section Proofs.

Context {E : Externals}.

(** ** The files the extractor writes *)

Lemma write_rows_run (path : string) (msgs : list string) :
  forall (fs : gmap string string) (out : list string) (pre : string),
  fs !! path = Some pre ->
  write_rows path msgs (World fs out)
  = (World (<[path := pre +:+ rows_text msgs]> fs) out, Ok tt).
Proof.
  induction msgs as [|msg msgs IH]; intros fs out pre Hpre; simpl.
  - rewrite append_nil_r, insert_id by exact Hpre. reflexivity.
  - unfold bind, write at 1. simpl. rewrite Hpre. simpl.
    rewrite (IH _ _ (pre +:+ writerow msg)) by apply lookup_insert_eq.
    rewrite insert_insert_eq, append_assoc. reflexivity.
Qed.

(** [with open(path, 'w') as f:] followed by the loop of [writerow]. *)
Lemma write_file_run (path : string) (msgs : list string) (w : world) {A}
    (k : Py A) :
  (open_write path ;;; write_rows path msgs ;;; k) w
  = k (World (<[path := rows_text msgs]> (files w)) (stdout w)).
Proof.
  unfold bind at 1, open_write. unfold bind at 1.
  rewrite (write_rows_run path msgs _ _ "") by apply lookup_insert_eq.
  rewrite insert_insert_eq. reflexivity.
Qed.

(** What one call of the extractor does. *)
Lemma externaltweets_run (path : string) (o1 o2 o3 : option string) (w : world) :
  externaltweets path o1 o2 o3 w
  = match files w !! path with
    | None => (w, Raise (FileNotFoundError path))
    | Some content =>
        match scan (DictReader content) (∅, ∅, ∅) with
        | Raise e => (w, Raise e)
        | Ok (retweets, replies, quotes) =>
            let '(p_rt, p_rp, p_qt) := outpaths path o1 o2 o3 in
            (World
               (<[p_qt := rows_text (elements quotes)]>
                 (<[p_rp := rows_text (elements replies)]>
                   (<[p_rt := rows_text (elements retweets)]> (files w))))
               (stdout w
                ++ [summary (snd (os_path_split path)) retweets replies quotes]),
             Ok VNone)
        end
    end.
Proof.
  unfold externaltweets. destruct (outpaths path o1 o2 o3) as [[p_rt p_rp] p_qt].
  unfold bind at 1, open_read. destruct (files w !! path) as [content|]; [|reflexivity].
  unfold bind at 1, lift.
  destruct (scan (DictReader content) (∅, ∅, ∅)) as [[[rt rp] qt]|e]; [|reflexivity].
  rewrite !write_file_run. reflexivity.
Qed.

(** The default output paths are the input path's folder and file name with
    a suffix: three different paths. *)
Lemma os_path_join_suffix (a f : string) :
  exists p, forall suf,
    startswith slash (f +:+ suf) = startswith slash (f +:+ "_") ->
    os_path_join a (f +:+ suf) = p +:+ suf.
Proof.
  unfold os_path_join.
  destruct (startswith slash (f +:+ "_")) eqn:Hs.
  - exists f. intros suf ->. reflexivity.
  - destruct (String.eqb a "" || endswith slash a).
    + exists (a +:+ f). intros suf ->. now rewrite append_assoc.
    + exists (a +:+ String slash "" +:+ f). intros suf ->.
      now rewrite !append_assoc.
Qed.

Lemma startswith_suffix (f suf : string) :
  startswith slash suf = false -> suf <> ""%string ->
  startswith slash (f +:+ suf) = startswith slash (f +:+ "_").
Proof.
  intros Hs Hne. destruct f as [|c f]; [|reflexivity].
  destruct suf; [congruence | exact Hs].
Qed.

Lemma outpaths_default_distinct (path : string) :
  forall p_rt p_rp p_qt,
  outpaths path None None None = (p_rt, p_rp, p_qt) ->
  p_rt <> p_rp /\ p_rt <> p_qt /\ p_rp <> p_qt.
Proof.
  intros p_rt p_rp p_qt. unfold outpaths. simpl.
  destruct (os_path_join_suffix (os_path_split path).1 (os_path_split path).2)
    as [p Hp].
  rewrite !Hp by (apply startswith_suffix; [reflexivity | discriminate]).
  intros [= <- <- <-].
  repeat split; intros Heq; apply append_inj_r in Heq; discriminate Heq.
Qed.

(** What the extractor leaves on disk, when its three output paths differ. *)
Lemma externaltweets_files (path : string) (o1 o2 o3 : option string)
    (w w' : world) (v : value) :
  externaltweets path o1 o2 o3 w = (w', Ok v) ->
  exists content retweets replies quotes,
    files w !! path = Some content
    /\ scan (DictReader content) (∅, ∅, ∅) = Ok (retweets, replies, quotes)
    /\ v = VNone
    /\ stdout w'
       = stdout w ++ [summary (snd (os_path_split path)) retweets replies quotes]
    /\ forall p_rt p_rp p_qt,
         outpaths path o1 o2 o3 = (p_rt, p_rp, p_qt) ->
         files w'
         = <[p_qt := rows_text (elements quotes)]>
             (<[p_rp := rows_text (elements replies)]>
               (<[p_rt := rows_text (elements retweets)]> (files w))).
Proof.
  rewrite externaltweets_run. intros H.
  destruct (files w !! path) as [content|]; [|discriminate H].
  destruct (scan (DictReader content) (∅, ∅, ∅)) as [[[rt rp] qt]|e] eqn:Hscan;
    [|discriminate H].
  exists content, rt, rp, qt.
  destruct (outpaths path o1 o2 o3) as [[a b] c].
  injection H as <- <-. simpl.
  do 4 (split; [first [reflexivity | exact Hscan]|]).
  intros p_rt p_rp p_qt [= <- <- <-]. reflexivity.
Qed.

(** The extractor succeeds on every file that exists, that the reader reads
    to its end, and whose rows have all their fields. *)
Lemma externaltweets_succeeds (path : string) (o1 o2 o3 : option string)
    (w : world) (content : string) (rows : list row) :
  files w !! path = Some content ->
  DictReader content = stream_of_list rows ->
  Forall complete rows ->
  exists w', externaltweets path o1 o2 o3 w = (w', Ok VNone).
Proof.
  intros Hfile Hreader Hrows. rewrite externaltweets_run, Hfile, Hreader.
  destruct (scan_complete rows Hrows (∅, ∅, ∅)) as [[[rt rp] qt] ->].
  destruct (outpaths path o1 o2 o3) as [[p_rt p_rp] p_qt]. eauto.
Qed.

Lemma elements_once (X : idset) (id : string) :
  id ∈ X -> count_occ string_dec (elements X) id = 1%nat.
Proof.
  intros Hin. apply NoDup_count_occ'.
  - apply NoDup_ListNoDup, NoDup_elements.
  - apply list_elem_of_In, elem_of_elements, Hin.
Qed.

(** ** The extractor *)

(** C1: whenever the extractor succeeds on an input file, the retweet set
    holds exactly the identifiers [id] for which some row of the file has an
    empty [retweet_userid] and the non-empty [retweet_tweetid] [id]; rows
    with a retweeted user or without a retweeted tweet contribute nothing.
    Each identifier of the set is written exactly once, however many rows
    contribute it, and the retweet file holds these lines. *)
Theorem retweets_extracted_once (path : string) (o1 o2 o3 : option string)
    (w w' : world) (v : value) :
  externaltweets path o1 o2 o3 w = (w', Ok v) ->
  exists content retweets replies quotes,
    files w !! path = Some content
    /\ scan (DictReader content) (∅, ∅, ∅) = Ok (retweets, replies, quotes)
    /\ (forall id, id ∈ retweets <->
          exists r, r ∈ stream_items (DictReader content) /\ external_retweet r id)
    /\ (forall id, id ∈ retweets ->
          count_occ string_dec (elements retweets) id = 1%nat)
    /\ (forall p_rt p_rp p_qt,
          outpaths path o1 o2 o3 = (p_rt, p_rp, p_qt) ->
          p_rt <> p_rp -> p_rt <> p_qt ->
          files w' !! p_rt = Some (rows_text (elements retweets))).
Proof.
  intros H.
  destruct (externaltweets_files _ _ _ _ _ _ _ H)
    as (content & rt & rp & qt & Hfile & Hscan & _ & _ & Hfiles).
  exists content, rt, rp, qt.
  destruct (scan_inv _ _ _ _ _ _ _ Hscan) as (Hrt & _ & _).
  split; [exact Hfile|]. split; [exact Hscan|]. split; [|split].
  - intros id. rewrite Hrt. rewrite elem_of_empty. tauto.
  - intros id. apply elements_once.
  - intros p_rt p_rp p_qt Hp Hrp Hqt. rewrite (Hfiles _ _ _ Hp).
    rewrite lookup_insert_ne by congruence.
    rewrite lookup_insert_ne by congruence.
    apply lookup_insert_eq.
Qed.

(** The value of [in_reply_to_userid] does not enter the scan of a row. *)
Lemma scan_row_reply_userid (r : row) (u u' : string) (acc : idset * idset * idset) :
  scan_row (<["in_reply_to_userid" := Some u]> r) acc
  = scan_row (<["in_reply_to_userid" := Some u']> r) acc.
Proof.
  destruct acc as [[rt rp] qt]. unfold scan_row, getitem.
  rewrite !lookup_insert_eq.
  rewrite !(lookup_insert_ne _ "in_reply_to_userid"%string) by discriminate.
  destruct (r !! "retweet_userid"%string) as [[a|]|]; try reflexivity.
  destruct (r !! "retweet_tweetid"%string) as [[b|]|]; try reflexivity.
  cbn [py_len rbind]. rewrite !py_strlen_nonneg. reflexivity.
Qed.

(** C2: whenever the extractor succeeds on an input file, the reply set
    holds exactly the non-empty [in_reply_to_tweetid] of the rows: a row
    with a non-empty [in_reply_to_tweetid] is included whatever str its
    [in_reply_to_userid] is, the empty one too, and replacing that str by
    another one changes nothing in the scan of the row. *)
Theorem replies_by_tweetid_only (path : string) (o1 o2 o3 : option string)
    (w w' : world) (v : value) :
  externaltweets path o1 o2 o3 w = (w', Ok v) ->
  exists content retweets replies quotes,
    files w !! path = Some content
    /\ scan (DictReader content) (∅, ∅, ∅) = Ok (retweets, replies, quotes)
    /\ (forall id, id ∈ replies <->
          exists r, r ∈ stream_items (DictReader content) /\ reply_to r id)
    /\ (forall r u id,
          r ∈ stream_items (DictReader content) ->
          cell r "in_reply_to_userid" u ->
          cell r "in_reply_to_tweetid" id -> id <> ""%string ->
          id ∈ replies)
    /\ (forall (r : row) u u' acc,
          scan_row (<["in_reply_to_userid" := Some u]> r) acc
          = scan_row (<["in_reply_to_userid" := Some u']> r) acc).
Proof.
  intros H.
  destruct (externaltweets_files _ _ _ _ _ _ _ H)
    as (content & rt & rp & qt & Hfile & Hscan & _).
  exists content, rt, rp, qt.
  destruct (scan_inv _ _ _ _ _ _ _ Hscan) as (_ & Hrp & _).
  assert (Hiff : forall id, id ∈ rp <->
            exists r, r ∈ stream_items (DictReader content) /\ reply_to r id).
  { intros id. rewrite Hrp, elem_of_empty. tauto. }
  split; [exact Hfile|]. split; [exact Hscan|]. split; [exact Hiff|]. split.
  - intros r u id Hr _ Hid Hne. apply Hiff. exists r. split; [exact Hr|].
    split; assumption.
  - intros r u u' acc. apply scan_row_reply_userid.
Qed.

(** C9: whenever the extractor succeeds, the empty string is in none of its
    three sets. *)
Theorem no_empty_identifier (path : string) (o1 o2 o3 : option string)
    (w w' : world) (v : value) :
  externaltweets path o1 o2 o3 w = (w', Ok v) ->
  exists content retweets replies quotes,
    files w !! path = Some content
    /\ scan (DictReader content) (∅, ∅, ∅) = Ok (retweets, replies, quotes)
    /\ (""%string ∉ retweets) /\ (""%string ∉ replies) /\ (""%string ∉ quotes).
Proof.
  intros H.
  destruct (externaltweets_files _ _ _ _ _ _ _ H)
    as (content & rt & rp & qt & Hfile & Hscan & _).
  exists content, rt, rp, qt.
  destruct (scan_inv _ _ _ _ _ _ _ Hscan) as (Hrt & Hrp & Hqt).
  split; [exact Hfile|]. split; [exact Hscan|].
  unfold external_retweet in Hrt. unfold reply_to in Hrp. unfold quote_of in Hqt.
  (split; [|split]); intros Hin;
    [apply Hrt in Hin | apply Hrp in Hin | apply Hqt in Hin];
    destruct Hin as [Hin|(r & _ & Hr)];
    try (apply elem_of_empty in Hin; exact Hin); tauto.
Qed.

(** C6 (as amended): a successful call of the extractor returns [None]; the
    three sets reach its caller only through the three output files, which
    hold one line per identifier of the retweet, reply and quote sets, and
    through the counts it prints. *)
Theorem extractor_writes_and_returns_none (path : string) (w w' : world) (v : value) :
  externaltweets path None None None w = (w', Ok v) ->
  v = VNone
  /\ exists content retweets replies quotes p_rt p_rp p_qt,
       files w !! path = Some content
       /\ scan (DictReader content) (∅, ∅, ∅) = Ok (retweets, replies, quotes)
       /\ outpaths path None None None = (p_rt, p_rp, p_qt)
       /\ files w' !! p_rt = Some (rows_text (elements retweets))
       /\ files w' !! p_rp = Some (rows_text (elements replies))
       /\ files w' !! p_qt = Some (rows_text (elements quotes))
       /\ (forall p, p <> p_rt -> p <> p_rp -> p <> p_qt ->
             files w' !! p = files w !! p)
       /\ stdout w'
          = stdout w ++ [summary (snd (os_path_split path)) retweets replies quotes].
Proof.
  intros H.
  destruct (externaltweets_files _ _ _ _ _ _ _ H)
    as (content & rt & rp & qt & Hfile & Hscan & Hv & Hout & Hfiles).
  split; [exact Hv|].
  destruct (outpaths path None None None) as [[p_rt p_rp] p_qt] eqn:Hp.
  destruct (outpaths_default_distinct _ _ _ _ Hp) as (H1 & H2 & H3).
  exists content, rt, rp, qt, p_rt, p_rp, p_qt.
  rewrite (Hfiles _ _ _ eq_refl).
  split; [exact Hfile|]. split; [exact Hscan|]. split; [reflexivity|].
  split; [|split; [|split; [|split]]].
  - rewrite !lookup_insert_ne by congruence. apply lookup_insert_eq.
  - rewrite lookup_insert_ne by congruence. apply lookup_insert_eq.
  - apply lookup_insert_eq.
  - intros p Hp1 Hp2 Hp3. rewrite !lookup_insert_ne by congruence. reflexivity.
  - exact Hout.
Qed.

(** ** The hydrator *)

Lemma hydrate_loop_run (outpath : string) (tweets : stream tweet) :
  forall (fs : gmap string string) (out : list string) (pre : string) (c : Z),
  fs !! outpath = Some pre ->
  hydrate_loop outpath tweets c (World fs out)
  = (World (<[outpath := pre +:+ records_text (stream_items tweets)]> fs) out,
     match stream_end tweets with
     | None => Ok (c + Z.of_nat (length (stream_items tweets)))
     | Some e => Raise e
     end).
Proof.
  induction tweets as [|t tweets IH|e]; intros fs out pre c Hpre; simpl.
  - rewrite append_nil_r, insert_id by exact Hpre. rewrite Z.add_0_r. reflexivity.
  - unfold bind, write at 1. simpl. rewrite Hpre. simpl.
    rewrite (IH _ _ (pre +:+ (json_dumps t +:+ nl))) by apply lookup_insert_eq.
    rewrite insert_insert_eq, !append_assoc.
    destruct (stream_end tweets); [reflexivity|].
    do 2 f_equal. lia.
  - rewrite append_nil_r, insert_id by exact Hpre. reflexivity.
Qed.

(** What one call of the hydrator does. *)
Lemma harvest_external_data_run (path : string) (w : world) :
  harvest_external_data path w
  = match Twarc with
    | Raise e => (w, Raise e)
    | Ok _ =>
        match files w !! path with
        | None => (w, Raise (FileNotFoundError path))
        | Some content =>
            let num_lines := Z.of_nat (length (readlines content)) in
            let tweets := hydrate (readlines content) in
            let fs := <[path +:+ ".jsonl" := records_text (stream_items tweets)]> (files w) in
            let out := stdout w ++ ["working on " +:+ path] in
            match stream_end tweets with
            | Some e => (World fs out, Raise e)
            | None =>
                let collected := Z.of_nat (length (stream_items tweets)) in
                match recovered collected num_lines with
                | Raise e => (World (<[path +:+ ".log" := ""%string]> fs) out, Raise e)
                | Ok percent =>
                    (World
                       (<[path +:+ ".log" := report_line num_lines collected percent +:+ nl]> fs)
                       out,
                     Ok VNone)
                end
            end
        end
    end.
Proof.
  unfold harvest_external_data. unfold bind at 1, lift at 1.
  destruct Twarc as [[]|e]; [|reflexivity].
  unfold bind at 1, open_read at 1.
  destruct (files w !! path) as [content|] eqn:Hfile; [|reflexivity].
  unfold bind at 1, print. unfold bind at 1, open_write at 1.
  unfold bind at 1, open_read at 1. cbn [files stdout].
  rewrite lookup_insert_ne by (apply append_neq; discriminate).
  rewrite Hfile. unfold bind at 1.
  rewrite (hydrate_loop_run _ _ _ _ "") by apply lookup_insert_eq.
  rewrite insert_insert_eq. cbn [String.append].
  destruct (stream_end (hydrate (readlines content))) as [e|]; [reflexivity|].
  unfold bind at 1, open_write at 1. unfold bind at 1, lift at 1. cbn [files stdout].
  rewrite Z.add_0_l.
  destruct (recovered _ _) as [percent|e]; [|reflexivity].
  unfold bind at 1, write. cbn [files stdout].
  rewrite lookup_insert_eq, insert_insert_eq. reflexivity.
Qed.

Lemma readlines_from_nil (s : string) :
  forall cur, readlines_from s cur = [] -> s = ""%string /\ cur = ""%string.
Proof.
  induction s as [|c s IH]; intros cur H; simpl in H.
  - destruct (String.eqb cur "") eqn:Hcur; [|discriminate H].
    apply String.eqb_eq in Hcur. auto.
  - destruct (Ascii.eqb c lf); [discriminate H|].
    destruct (Ascii.eqb c cr).
    + destruct s as [|c' s]; [discriminate H|].
      destruct (Ascii.eqb c' lf); discriminate H.
    + apply IH in H as [_ H]. apply (f_equal String.length) in H.
      rewrite length_append in H. simpl in H. lia.
Qed.

(** A file has no line exactly when it is empty. *)
Lemma readlines_nil (content : string) :
  readlines content = [] <-> content = ""%string.
Proof.
  split.
  - intros H. apply readlines_from_nil in H. tauto.
  - intros ->. reflexivity.
Qed.

Lemma recovered_zero (collected : Z) : recovered collected 0 = Raise ZeroDivisionError.
Proof. reflexivity. Qed.

Lemma log_neq_jsonl (path : string) : path +:+ ".log" <> path +:+ ".jsonl".
Proof. intros H. apply append_inj_r in H. discriminate H. Qed.

(** C3: on an input file without lines the hydrator never returns: it
    raises, and when the connection and the hydration went through, what it
    raises is the division error of the report. The report file holds no
    report: it is left as it was or empty. *)
Theorem empty_input_division_error (path : string) (w : world) (content : string) :
  files w !! path = Some content ->
  readlines content = [] ->
  (exists e, snd (harvest_external_data path w) = Raise e)
  /\ (files (fst (harvest_external_data path w)) !! (path +:+ ".log")
      = files w !! (path +:+ ".log")
      \/ files (fst (harvest_external_data path w)) !! (path +:+ ".log")
         = Some ""%string)
  /\ (Twarc = Ok tt -> stream_end (hydrate []) = None ->
      snd (harvest_external_data path w) = Raise ZeroDivisionError
      /\ files (fst (harvest_external_data path w)) !! (path +:+ ".log")
         = Some ""%string).
Proof.
  intros Hfile Hlines. rewrite harvest_external_data_run, Hfile, Hlines.
  cbn zeta. simpl length. change (Z.of_nat 0) with 0.
  destruct Twarc as [[]|e].
  - destruct (stream_end (hydrate [])) as [e|].
    + simpl. split; [eauto|]. split; [|intros _ [=]].
      left. apply lookup_insert_ne, not_eq_sym, log_neq_jsonl.
    + rewrite recovered_zero. simpl. rewrite lookup_insert_eq.
      split; [eauto|]. split; [right; reflexivity|]. intros _ _. split; reflexivity.
  - simpl. split; [eauto|]. split; [auto | intros [=]].
Qed.




(** C8 (as amended): a successful call of the hydrator returns [None]; the
    numbers of the report (the lines requested, the records collected, the
    percentage recovered) reach its caller only through the report file. The
    percentage is the quotient of the two counts, times 100, rounded to two
    decimals, and the records file holds one line per record. *)
Theorem hydrator_writes_and_returns_none (path : string) (w w' : world) (v : value) :
  harvest_external_data path w = (w', Ok v) ->
  v = VNone
  /\ exists content percent,
       let tweets := hydrate (readlines content) in
       let num_lines := Z.of_nat (length (readlines content)) in
       let collected := Z.of_nat (length (stream_items tweets)) in
       files w !! path = Some content
       /\ stream_end tweets = None
       /\ recovered collected num_lines = Ok percent
       /\ files w' !! (path +:+ ".jsonl") = Some (records_text (stream_items tweets))
       /\ files w' !! (path +:+ ".log")
          = Some (report_line num_lines collected percent +:+ nl).
Proof.
  rewrite harvest_external_data_run. intros H.
  destruct Twarc as [[]|e]; [|discriminate H].
  destruct (files w !! path) as [content|]; [|discriminate H].
  cbn zeta in H.
  destruct (stream_end (hydrate (readlines content))) as [e|] eqn:Hend;
    [discriminate H|].
  destruct (recovered _ _) as [percent|e] eqn:Hrec; [|discriminate H].
  injection H as <- <-. split; [reflexivity|].
  exists content, percent. cbn zeta. cbn [files].
  do 3 (split; [first [reflexivity | assumption]|]). split.
  - rewrite lookup_insert_ne by apply log_neq_jsonl. apply lookup_insert_eq.
  - apply lookup_insert_eq.
Qed.

(** C10 (as amended): on an empty input file, with the connection made and
    no record hydrated, the hydrator truncates the records file, then
    truncates the report file, and only then raises the division error: the
    failed run leaves an empty records file and an empty report file, and
    so a disk that differs from the one it found unless both were there and
    empty. *)
Theorem empty_input_leaves_empty_files (path : string) (w : world) :
  files w !! path = Some ""%string ->
  Twarc = Ok tt ->
  hydrate [] = SNil ->
  snd (harvest_external_data path w) = Raise ZeroDivisionError
  /\ files (fst (harvest_external_data path w))
     = <[path +:+ ".log" := ""%string]> (<[path +:+ ".jsonl" := ""%string]> (files w))
  /\ files (fst (harvest_external_data path w)) !! (path +:+ ".jsonl") = Some ""%string
  /\ files (fst (harvest_external_data path w)) !! (path +:+ ".log") = Some ""%string
  /\ (files w !! (path +:+ ".jsonl") <> Some ""%string
      \/ files w !! (path +:+ ".log") <> Some ""%string ->
      files (fst (harvest_external_data path w)) <> files w).
Proof.
  intros Hfile Htwarc Hhyd.
  rewrite harvest_external_data_run, Hfile, Htwarc.
  change (readlines "") with (@nil string). rewrite Hhyd. simpl.
  split; [reflexivity|]. split; [reflexivity|].
  assert (H1 : (<[path +:+ ".log" := ""%string]>
                  (<[path +:+ ".jsonl" := ""%string]> (files w)))
               !! (path +:+ ".jsonl") = Some ""%string).
  { rewrite lookup_insert_ne by apply log_neq_jsonl. apply lookup_insert_eq. }
  assert (H2 : (<[path +:+ ".log" := ""%string]>
                  (<[path +:+ ".jsonl" := ""%string]> (files w)))
               !! (path +:+ ".log") = Some ""%string).
  { apply lookup_insert_eq. }
  split; [exact H1|]. split; [exact H2|].
  intros [Hne|Hne] Heq; rewrite Heq in *; contradiction.
Qed.

(** ** The walkers *)

Lemma failures_app (t1 t2 : list visit) :
  failures (t1 ++ t2) = failures t1 ++ failures t2.
Proof. unfold failures. rewrite filter_app, map_app. reflexivity. Qed.

Lemma failures_cons (v : visit) (trace : list visit) :
  failures (v :: trace)
  = (if raised (outcome v) then [visited v] else []) ++ failures trace.
Proof.
  unfold failures. rewrite filter_cons.
  destruct (raised (outcome v)); simpl; [reflexivity|].
  destruct (decide (false = true)); [discriminate | reflexivity].
Qed.

Lemma print_all_run (problems : list string) :
  forall fs out,
  print_all problems (World fs out) = (World fs (out ++ problems), Ok tt).
Proof.
  induction problems as [|p problems IH]; intros fs out; simpl.
  - rewrite app_nil_r. reflexivity.
  - unfold bind, print. simpl. rewrite IH, <- app_assoc. reflexivity.
Qed.

Lemma linked_app (left_by : visit -> world) (t1 t2 : list visit) :
  forall w w1 w2,
  linked left_by w t1 w1 -> linked left_by w1 t2 w2 ->
  linked left_by w (t1 ++ t2) w2.
Proof.
  induction t1 as [|v t1 IH]; intros w w1 w2 H1 H2; simpl in *.
  - subst w1. exact H2.
  - destruct H1 as [Hb H1]. split; [exact Hb | exact (IH _ _ _ H1 H2)].
Qed.

(** The inner loop of [getfiles] calls [method] once on every file, in
    order, each call in the world the one before it left, and returns the
    problems it was given followed by the files on which the call raised. *)
Lemma getfiles_files_trace (method : string -> Py value) (fs : list string) :
  forall problems w,
  exists trace w',
    getfiles_files method fs problems w = (w', Ok (problems ++ failures trace))
    /\ map visited trace = fs
    /\ Forall (run_of method) trace
    /\ linked (left_by_getfiles method) w trace w'.
Proof.
  induction fs as [|f fs IH]; intros problems w.
  - exists [], w. simpl. rewrite app_nil_r. repeat split. constructor.
  - cbn [getfiles_files]. unfold bind at 1, print at 1. unfold bind at 1, try.
    fold (announced w f).
    destruct (method f (announced w f)) as [w2 r] eqn:Hrun.
    destruct r as [v|e].
    + destruct (IH problems w2) as (trace & w' & Hloop & Hmap & Hall & Hlink).
      exists (Visit f (announced w f) (Ok v) :: trace), w'.
      rewrite failures_cons. simpl. rewrite Hloop, Hmap.
      split; [reflexivity|]. split; [reflexivity|]. split.
      * constructor; [|exact Hall].
        unfold run_of. simpl. rewrite Hrun. reflexivity.
      * split; [reflexivity|].
        unfold left_by_getfiles. simpl. rewrite Hrun. exact Hlink.
    + unfold bind at 1, print at 1. fold (reported w2 f).
      destruct (IH (problems ++ [f]) (reported w2 f))
        as (trace & w' & Hloop & Hmap & Hall & Hlink).
      exists (Visit f (announced w f) (Raise e) :: trace), w'.
      rewrite failures_cons. simpl. rewrite Hloop, Hmap, <- app_assoc.
      split; [reflexivity|]. split; [reflexivity|]. split.
      * constructor; [|exact Hall].
        unfold run_of. simpl. rewrite Hrun. reflexivity.
      * split; [reflexivity|].
        unfold left_by_getfiles. simpl. rewrite Hrun. exact Hlink.
Qed.

Lemma harvestfiles_files_trace (fs : list string) :
  forall problems w,
  exists trace w',
    harvestfiles_files fs problems w = (w', Ok (problems ++ failures trace))
    /\ map visited trace = fs
    /\ Forall (run_of harvest_external_data) trace
    /\ linked left_by_harvestfiles w trace w'.
Proof.
  induction fs as [|f fs IH]; intros problems w.
  - exists [], w. simpl. rewrite app_nil_r. repeat split. constructor.
  - cbn [harvestfiles_files]. unfold bind at 1, print at 1. unfold bind at 1, try.
    fold (announced w f).
    destruct (harvest_external_data f (announced w f)) as [w2 r] eqn:Hrun.
    destruct r as [v|e].
    + destruct (IH problems w2) as (trace & w' & Hloop & Hmap & Hall & Hlink).
      exists (Visit f (announced w f) (Ok v) :: trace), w'.
      rewrite failures_cons. simpl. rewrite Hloop, Hmap.
      split; [reflexivity|]. split; [reflexivity|]. split.
      * constructor; [|exact Hall].
        unfold run_of. simpl. rewrite Hrun. reflexivity.
      * split; [reflexivity|].
        unfold left_by_harvestfiles. simpl. rewrite Hrun. exact Hlink.
    + destruct (IH (problems ++ [f]) w2)
        as (trace & w' & Hloop & Hmap & Hall & Hlink).
      exists (Visit f (announced w f) (Raise e) :: trace), w'.
      rewrite failures_cons. simpl. rewrite Hloop, Hmap, <- app_assoc.
      split; [reflexivity|]. split; [reflexivity|]. split.
      * constructor; [|exact Hall].
        unfold run_of. simpl. rewrite Hrun. reflexivity.
      * split; [reflexivity|].
        unfold left_by_harvestfiles. simpl. rewrite Hrun. exact Hlink.
Qed.

Lemma getfiles_subfolders_trace (method : string -> Py value)
    (subfolders : list string) :
  forall problems w fs,
  selected tweets_files subfolders = Ok fs ->
  exists trace w',
    getfiles_subfolders method subfolders problems w
    = (w', Ok (problems ++ failures trace))
    /\ map visited trace = fs
    /\ Forall (run_of method) trace
    /\ linked (left_by_getfiles method) w trace w'.
Proof.
  induction subfolders as [|sub subfolders IH]; intros problems w fs Hsel;
    cbn [selected] in Hsel.
  - injection Hsel as <-. exists [], w. simpl. rewrite app_nil_r.
    repeat split. constructor.
  - destruct (tweets_files sub) as [fs1|e] eqn:Hsub; [|discriminate Hsel].
    destruct (selected tweets_files subfolders) as [fs2|e] eqn:Hrest;
      [|discriminate Hsel].
    injection Hsel as <-.
    cbn [getfiles_subfolders]. rewrite Hsub. unfold bind at 1, lift at 1.
    destruct (getfiles_files_trace method fs1 problems w)
      as (t1 & w1 & Hloop1 & Hmap1 & Hall1 & Hlink1).
    unfold bind at 1. rewrite Hloop1.
    destruct (IH (problems ++ failures t1) w1 fs2 eq_refl)
      as (t2 & w2 & Hloop2 & Hmap2 & Hall2 & Hlink2).
    exists (t1 ++ t2), w2.
    rewrite Hloop2, failures_app, map_app, Hmap1, Hmap2, <- app_assoc.
    split; [reflexivity|]. split; [reflexivity|]. split.
    + apply Forall_app. split; assumption.
    + exact (linked_app _ _ _ _ _ _ Hlink1 Hlink2).
Qed.

Lemma harvestfiles_subfolders_trace (subfolders : list string) :
  forall problems w fs,
  selected external_files subfolders = Ok fs ->
  exists trace w',
    harvestfiles_subfolders subfolders problems w
    = (w', Ok (problems ++ failures trace))
    /\ map visited trace = fs
    /\ Forall (run_of harvest_external_data) trace
    /\ linked left_by_harvestfiles w trace w'.
Proof.
  induction subfolders as [|sub subfolders IH]; intros problems w fs Hsel;
    cbn [selected] in Hsel.
  - injection Hsel as <-. exists [], w. simpl. rewrite app_nil_r.
    repeat split. constructor.
  - destruct (external_files sub) as [fs1|e] eqn:Hsub; [|discriminate Hsel].
    destruct (selected external_files subfolders) as [fs2|e] eqn:Hrest;
      [|discriminate Hsel].
    injection Hsel as <-.
    cbn [harvestfiles_subfolders]. rewrite Hsub. unfold bind at 1, lift at 1.
    destruct (harvestfiles_files_trace fs1 problems w)
      as (t1 & w1 & Hloop1 & Hmap1 & Hall1 & Hlink1).
    unfold bind at 1. rewrite Hloop1.
    destruct (IH (problems ++ failures t1) w1 fs2 eq_refl)
      as (t2 & w2 & Hloop2 & Hmap2 & Hall2 & Hlink2).
    exists (t1 ++ t2), w2.
    rewrite Hloop2, failures_app, map_app, Hmap1, Hmap2, <- app_assoc.
    split; [reflexivity|]. split; [reflexivity|]. split.
    + apply Forall_app. split; assumption.
    + exact (linked_app _ _ _ _ _ _ Hlink1 Hlink2).
Qed.

Lemma getfiles_run (datafolder : string) (method : string -> Py value) (w : world) :
  getfiles datafolder method w
  = match subfolders_of datafolder with
    | Raise e => (w, Raise e)
    | Ok subfolders =>
        match getfiles_subfolders method subfolders [] w with
        | (w1, Raise e) => (w1, Raise e)
        | (w1, Ok problems) =>
            (World (files w1) (stdout w1 ++ problems_header :: problems), Ok VNone)
        end
    end.
Proof.
  unfold getfiles. unfold bind at 1, lift.
  destruct (subfolders_of datafolder) as [subfolders|e]; [|reflexivity].
  unfold bind at 1.
  destruct (getfiles_subfolders method subfolders [] w) as [w1 [problems|e]];
    [|reflexivity].
  unfold bind at 1, print. unfold bind at 1. cbn [files stdout].
  rewrite print_all_run, <- app_assoc. reflexivity.
Qed.

Lemma harvestfiles_run (datafolder : string) (w : world) :
  harvestfiles datafolder w
  = match subfolders_of datafolder with
    | Raise e => (w, Raise e)
    | Ok subfolders =>
        match harvestfiles_subfolders subfolders [] w with
        | (w1, Raise e) => (w1, Raise e)
        | (w1, Ok problems) =>
            (World (files w1) (stdout w1 ++ problems_header :: problems), Ok VNone)
        end
    end.
Proof.
  unfold harvestfiles. unfold bind at 1, lift.
  destruct (subfolders_of datafolder) as [subfolders|e]; [|reflexivity].
  unfold bind at 1.
  destruct (harvestfiles_subfolders subfolders [] w) as [w1 [problems|e]];
    [|reflexivity].
  unfold bind at 1, print. unfold bind at 1. cbn [files stdout].
  rewrite print_all_run, <- app_assoc. reflexivity.
Qed.

(** Three files of which the second raises: the third is processed in the
    world the failure left, and the failure list is the second file. *)
Lemma second_of_three_fails (method : string -> Py value) (f1 f2 f3 : string)
    (w w1 w2 w3 : world) (v1 v3 : value) (e : exn) :
  method f1 (announced w f1) = (w1, Ok v1) ->
  method f2 (announced w1 f2) = (w2, Raise e) ->
  method f3 (announced (reported w2 f2) f3) = (w3, Ok v3) ->
  getfiles_files method [f1; f2; f3] [] w = (w3, Ok [f2]).
Proof.
  unfold announced, reported. cbn [files stdout]. intros H1 H2 H3.
  cbn [getfiles_files]. unfold bind, print, try. cbn [files stdout].
  rewrite H1. cbn [files stdout]. rewrite H2. cbn [files stdout]. rewrite H3.
  reflexivity.
Qed.

(** C4: once the files are enumerated, each walker calls its per-file
    function once on every selected file, in order, whatever the earlier
    calls did: each call runs in the world that the call before it left
    (with what it wrote and printed), and the walk ends in the world the
    last call left. Its failure list is exactly the files on which the call
    raised, in that order, so a file that succeeds is not in it and the
    files after a failing one are still processed. *)
Theorem walkers_record_failures_and_continue (datafolder : string)
    (method : string -> Py value) (w : world)
    (subfolders tweets_fs ids_fs : list string) :
  subfolders_of datafolder = Ok subfolders ->
  selected tweets_files subfolders = Ok tweets_fs ->
  selected external_files subfolders = Ok ids_fs ->
  (exists trace w1,
     map visited trace = tweets_fs
     /\ Forall (run_of method) trace
     /\ linked (left_by_getfiles method) w trace w1
     /\ getfiles_subfolders method subfolders [] w = (w1, Ok (failures trace))
     /\ getfiles datafolder method w
        = (World (files w1) (stdout w1 ++ problems_header :: failures trace),
           Ok VNone))
  /\ (exists trace w1,
        map visited trace = ids_fs
        /\ Forall (run_of harvest_external_data) trace
        /\ linked left_by_harvestfiles w trace w1
        /\ harvestfiles_subfolders subfolders [] w = (w1, Ok (failures trace))
        /\ harvestfiles datafolder w
           = (World (files w1) (stdout w1 ++ problems_header :: failures trace),
              Ok VNone)).
Proof.
  intros Hsub Htweets Hids. split.
  - destruct (getfiles_subfolders_trace method subfolders [] w _ Htweets)
      as (trace & w1 & Hloop & Hmap & Hall & Hlink).
    exists trace, w1. rewrite getfiles_run, Hsub, Hloop.
    repeat split; assumption.
  - destruct (harvestfiles_subfolders_trace subfolders [] w _ Hids)
      as (trace & w1 & Hloop & Hmap & Hall & Hlink).
    exists trace, w1. rewrite harvestfiles_run, Hsub, Hloop.
    repeat split; assumption.
Qed.

(** C7 (as amended): a walker that comes to its end returns [None]; the
    failure list it accumulated reaches its caller only as the lines it
    prints, after the header line, at the end of its output. *)
Theorem walkers_print_failures_and_return_none (datafolder : string)
    (method : string -> Py value) (w : world) :
  (forall w' v, getfiles datafolder method w = (w', Ok v) ->
     v = VNone
     /\ exists subfolders w1 problems,
          subfolders_of datafolder = Ok subfolders
          /\ getfiles_subfolders method subfolders [] w = (w1, Ok problems)
          /\ files w' = files w1
          /\ stdout w' = stdout w1 ++ problems_header :: problems)
  /\ (forall w' v, harvestfiles datafolder w = (w', Ok v) ->
        v = VNone
        /\ exists subfolders w1 problems,
             subfolders_of datafolder = Ok subfolders
             /\ harvestfiles_subfolders subfolders [] w = (w1, Ok problems)
             /\ files w' = files w1
             /\ stdout w' = stdout w1 ++ problems_header :: problems).
Proof.
  split; intros w' v; [rewrite getfiles_run | rewrite harvestfiles_run];
    intros H;
    (destruct (subfolders_of datafolder) as [subfolders|e]; [|discriminate H]).
  - destruct (getfiles_subfolders method subfolders [] w) as [w1 [problems|e]]
      eqn:Hloop; [|discriminate H].
    injection H as <- <-. split; [reflexivity|].
    exists subfolders, w1, problems. repeat split. exact Hloop.
  - destruct (harvestfiles_subfolders subfolders [] w) as [w1 [problems|e]]
      eqn:Hloop; [|discriminate H].
    injection H as <- <-. split; [reflexivity|].
    exists subfolders, w1, problems. repeat split. exact Hloop.
Qed.

End Proofs.

(** * The properties on the concrete installation *)

Lemma retweets_extracted_once_witness :
  externaltweets (E := Demo.externals) "data/A/a_tweets.csv" None None None Demo.w0
  = (Demo.extracted, Ok VNone)
  /\ exists content retweets replies quotes,
       files Demo.w0 !! "data/A/a_tweets.csv"%string = Some content
       /\ scan (Demo.reader content) (∅, ∅, ∅) = Ok (retweets, replies, quotes)
       /\ (forall id, id ∈ retweets <->
             exists r, r ∈ stream_items (Demo.reader content) /\ external_retweet r id)
       /\ (forall id, id ∈ retweets ->
             count_occ string_dec (elements retweets) id = 1%nat)
       /\ files Demo.extracted !! "data/A/a_tweets.csv_retweets"%string
          = Some (rows_text (H := Demo.externals) (elements retweets)).
Proof.
  split; [vm_compute; reflexivity|].
  destruct (retweets_extracted_once (E := Demo.externals)
              "data/A/a_tweets.csv" None None None Demo.w0 Demo.extracted VNone)
    as (content & rt & rp & qt & Hfile & Hscan & Hiff & Honce & Hpath).
  { vm_compute. reflexivity. }
  exists content, rt, rp, qt.
  split; [exact Hfile|]. split; [exact Hscan|]. split; [exact Hiff|].
  split; [exact Honce|].
  apply (Hpath _ "data/A/a_tweets.csv_replies"%string
           "data/A/a_tweets.csv_quotes"%string).
  - vm_compute. reflexivity.
  - discriminate.
  - discriminate.
Defined.

Lemma replies_by_tweetid_only_witness :
  externaltweets (E := Demo.externals) "data/A/a_tweets.csv" None None None Demo.w0
  = (Demo.extracted, Ok VNone)
  /\ exists content retweets replies quotes,
       files Demo.w0 !! "data/A/a_tweets.csv"%string = Some content
       /\ scan (Demo.reader content) (∅, ∅, ∅) = Ok (retweets, replies, quotes)
       /\ (forall id, id ∈ replies <->
             exists r, r ∈ stream_items (Demo.reader content) /\ reply_to r id)
       /\ "222"%string ∈ replies
       /\ "223"%string ∈ replies
       /\ (forall (r : row) u u' acc,
             scan_row (<["in_reply_to_userid" := Some u]> r) acc
             = scan_row (<["in_reply_to_userid" := Some u']> r) acc).
Proof.
  split; [vm_compute; reflexivity|].
  destruct (replies_by_tweetid_only (E := Demo.externals)
              "data/A/a_tweets.csv" None None None Demo.w0 Demo.extracted VNone)
    as (content & rt & rp & qt & Hfile & Hscan & Hiff & Hany & Hsame).
  { vm_compute. reflexivity. }
  assert (Hcontent : content = "good"%string).
  { vm_compute in Hfile. congruence. }
  exists content, rt, rp, qt.
  split; [exact Hfile|]. split; [exact Hscan|]. split; [exact Hiff|].
  subst content. split; [|split; [|exact Hsame]].
  - apply (Hany (Demo.mkrow "" "" "" "222" "") ""%string "222"%string).
    + change (stream_items (Demo.reader "good")) with Demo.rows.
      unfold Demo.rows. do 3 apply list_elem_of_further. apply list_elem_of_here.
    + reflexivity.
    + reflexivity.
    + discriminate.
  - apply (Hany (Demo.mkrow "" "" "u5" "223" "") "u5"%string "223"%string).
    + change (stream_items (Demo.reader "good")) with Demo.rows.
      unfold Demo.rows. do 4 apply list_elem_of_further. apply list_elem_of_here.
    + reflexivity.
    + reflexivity.
    + discriminate.
Defined.

Lemma no_empty_identifier_witness :
  externaltweets (E := Demo.externals) "data/A/a_tweets.csv" None None None Demo.w0
  = (Demo.extracted, Ok VNone)
  /\ exists content retweets replies quotes,
       files Demo.w0 !! "data/A/a_tweets.csv"%string = Some content
       /\ scan (Demo.reader content) (∅, ∅, ∅) = Ok (retweets, replies, quotes)
       /\ (""%string ∉ retweets) /\ (""%string ∉ replies) /\ (""%string ∉ quotes).
Proof.
  split; [vm_compute; reflexivity|].
  apply (no_empty_identifier (E := Demo.externals)
           "data/A/a_tweets.csv" None None None Demo.w0 Demo.extracted VNone).
  vm_compute. reflexivity.
Defined.

(** C6, the claim as stated fails: on [data/A/a_tweets.csv] the extractor
    succeeds and what it returns is [None], not a triple of sets. *)
Lemma extractor_returns_triple_counterexample :
  snd (externaltweets (E := Demo.externals) "data/A/a_tweets.csv" None None None
         Demo.w0) = Ok VNone
  /\ forall retweets replies quotes,
       snd (externaltweets (E := Demo.externals) "data/A/a_tweets.csv" None None
              None Demo.w0)
       <> Ok (VTuple [VSet retweets; VSet replies; VSet quotes]).
Proof.
  assert (H : snd (externaltweets (E := Demo.externals) "data/A/a_tweets.csv"
                     None None None Demo.w0) = Ok VNone)
    by (vm_compute; reflexivity).
  split; [exact H|]. intros rt rp qt. rewrite H. discriminate.
Qed.

Lemma extractor_writes_and_returns_none_witness :
  externaltweets (E := Demo.externals) "data/A/a_tweets.csv" None None None Demo.w0
  = (Demo.extracted, Ok VNone)
  /\ VNone = VNone
  /\ exists content retweets replies quotes p_rt p_rp p_qt,
       files Demo.w0 !! "data/A/a_tweets.csv"%string = Some content
       /\ scan (Demo.reader content) (∅, ∅, ∅) = Ok (retweets, replies, quotes)
       /\ outpaths "data/A/a_tweets.csv" None None None = (p_rt, p_rp, p_qt)
       /\ files Demo.extracted !! p_rt
          = Some (rows_text (H := Demo.externals) (elements retweets))
       /\ files Demo.extracted !! p_rp
          = Some (rows_text (H := Demo.externals) (elements replies))
       /\ files Demo.extracted !! p_qt
          = Some (rows_text (H := Demo.externals) (elements quotes))
       /\ (forall p, p <> p_rt -> p <> p_rp -> p <> p_qt ->
             files Demo.extracted !! p = files Demo.w0 !! p)
       /\ stdout Demo.extracted
          = stdout Demo.w0
            ++ [summary (snd (os_path_split "data/A/a_tweets.csv"))
                  retweets replies quotes].
Proof.
  split; [vm_compute; reflexivity|].
  apply (extractor_writes_and_returns_none (E := Demo.externals)
           "data/A/a_tweets.csv" Demo.w0 Demo.extracted VNone).
  vm_compute. reflexivity.
Defined.

Lemma empty_input_division_error_witness :
  files Demo.w0 !! "data/A/b_tweets.csv_replies"%string = Some ""%string
  /\ readlines "" = []
  /\ Twarc (Externals := Demo.externals) = Ok tt
  /\ stream_end (hydrate (Externals := Demo.externals) []) = None
  /\ (exists e,
        snd (harvest_external_data (E := Demo.externals)
               "data/A/b_tweets.csv_replies" Demo.w0) = Raise e)
  /\ snd (harvest_external_data (E := Demo.externals)
            "data/A/b_tweets.csv_replies" Demo.w0) = Raise ZeroDivisionError
  /\ files (fst (harvest_external_data (E := Demo.externals)
                   "data/A/b_tweets.csv_replies" Demo.w0))
       !! ("data/A/b_tweets.csv_replies" +:+ ".log")
     = Some ""%string.
Proof.
  split; [vm_compute; reflexivity|]. split; [reflexivity|].
  split; [reflexivity|]. split; [reflexivity|].
  destruct (empty_input_division_error (E := Demo.externals)
              "data/A/b_tweets.csv_replies" Demo.w0 "")
    as (Hraise & _ & Hdiv).
  - vm_compute. reflexivity.
  - reflexivity.
  - split; [exact Hraise|]. apply Hdiv; reflexivity.
Defined.


(** C8, the claim as stated fails: on [data/A/a_tweets.csv_retweets] the
    hydrator succeeds and what it returns is [None], not a report. *)
Lemma hydrator_returns_report_counterexample :
  snd (harvest_external_data (E := Demo.externals)
         "data/A/a_tweets.csv_retweets" Demo.w0) = Ok VNone
  /\ forall total_requested collected recovery_percent,
       snd (harvest_external_data (E := Demo.externals)
              "data/A/a_tweets.csv_retweets" Demo.w0)
       <> Ok (VTuple [VInt total_requested; VInt collected; VFloat recovery_percent]).
Proof.
  assert (H : snd (harvest_external_data (E := Demo.externals)
                     "data/A/a_tweets.csv_retweets" Demo.w0) = Ok VNone)
    by (vm_compute; reflexivity).
  split; [exact H|]. intros n c p. rewrite H. discriminate.
Qed.

Lemma hydrator_writes_and_returns_none_witness :
  harvest_external_data (E := Demo.externals) "data/A/a_tweets.csv_retweets" Demo.w0
  = (Demo.hydrated, Ok VNone)
  /\ VNone = VNone
  /\ exists content percent,
       let tweets := hydrate (Externals := Demo.externals) (readlines content) in
       let num_lines := Z.of_nat (length (readlines content)) in
       let collected := Z.of_nat (length (stream_items tweets)) in
       files Demo.w0 !! "data/A/a_tweets.csv_retweets"%string = Some content
       /\ stream_end tweets = None
       /\ recovered collected num_lines = Ok percent
       /\ files Demo.hydrated !! ("data/A/a_tweets.csv_retweets" +:+ ".jsonl")
          = Some (records_text (H := Demo.externals) (stream_items tweets))
       /\ files Demo.hydrated !! ("data/A/a_tweets.csv_retweets" +:+ ".log")
          = Some (report_line (E := Demo.externals) num_lines collected percent
                  +:+ nl).
Proof.
  split; [vm_compute; reflexivity|].
  apply (hydrator_writes_and_returns_none (E := Demo.externals)
           "data/A/a_tweets.csv_retweets" Demo.w0 Demo.hydrated VNone).
  vm_compute. reflexivity.
Defined.

(** C10, the claim as stated fails: on the empty file
    [data/A/b_tweets.csv_replies] the hydrator raises the division error and
    leaves an empty records file, but there is a report file after the run,
    where there was none before it. *)
Lemma empty_input_no_report_file_counterexample :
  files Demo.w0 !! "data/A/b_tweets.csv_replies"%string = Some ""%string
  /\ files Demo.w0 !! "data/A/b_tweets.csv_replies.log"%string = None
  /\ snd (harvest_external_data (E := Demo.externals)
            "data/A/b_tweets.csv_replies" Demo.w0) = Raise ZeroDivisionError
  /\ files (fst (harvest_external_data (E := Demo.externals)
                   "data/A/b_tweets.csv_replies" Demo.w0))
       !! "data/A/b_tweets.csv_replies.jsonl"%string = Some ""%string
  /\ files (fst (harvest_external_data (E := Demo.externals)
                   "data/A/b_tweets.csv_replies" Demo.w0))
       !! "data/A/b_tweets.csv_replies.log"%string <> None.
Proof.
  repeat split; try (vm_compute; reflexivity).
  vm_compute. discriminate.
Qed.

Lemma empty_input_leaves_empty_files_witness :
  files Demo.w0 !! "data/A/b_tweets.csv_replies"%string = Some ""%string
  /\ files Demo.w0 !! ("data/A/b_tweets.csv_replies" +:+ ".jsonl") = None
  /\ snd (harvest_external_data (E := Demo.externals)
            "data/A/b_tweets.csv_replies" Demo.w0) = Raise ZeroDivisionError
  /\ files (fst (harvest_external_data (E := Demo.externals)
                   "data/A/b_tweets.csv_replies" Demo.w0))
     = <["data/A/b_tweets.csv_replies" +:+ ".log" := ""%string]>
         (<["data/A/b_tweets.csv_replies" +:+ ".jsonl" := ""%string]>
            (files Demo.w0))
  /\ files (fst (harvest_external_data (E := Demo.externals)
                   "data/A/b_tweets.csv_replies" Demo.w0))
       !! ("data/A/b_tweets.csv_replies" +:+ ".jsonl") = Some ""%string
  /\ files (fst (harvest_external_data (E := Demo.externals)
                   "data/A/b_tweets.csv_replies" Demo.w0))
       !! ("data/A/b_tweets.csv_replies" +:+ ".log") = Some ""%string
  /\ files (fst (harvest_external_data (E := Demo.externals)
                   "data/A/b_tweets.csv_replies" Demo.w0))
     <> files Demo.w0.
Proof.
  assert (Hnone : files Demo.w0 !! ("data/A/b_tweets.csv_replies" +:+ ".jsonl")
                  = None) by (vm_compute; reflexivity).
  split; [vm_compute; reflexivity|]. split; [exact Hnone|].
  destruct (empty_input_leaves_empty_files (E := Demo.externals)
              "data/A/b_tweets.csv_replies" Demo.w0)
    as (Hraise & Hfiles & Hjsonl & Hlog & Hchanged);
    try (vm_compute; reflexivity).
  split; [exact Hraise|]. split; [exact Hfiles|]. split; [exact Hjsonl|].
  split; [exact Hlog|]. apply Hchanged. left. rewrite Hnone. discriminate.
Defined.

Lemma walkers_record_failures_and_continue_witness :
  subfolders_of (E := Demo.externals) "data" = Ok ["data/A"]%string
  /\ selected (tweets_files (E := Demo.externals)) ["data/A"]%string
     = Ok ["data/A/a_tweets.csv"; "data/A/b_tweets.csv"; "data/A/c_tweets.csv"]%string
  /\ selected (external_files (E := Demo.externals)) ["data/A"]%string
     = Ok ["data/A/a_tweets.csv_retweets"; "data/A/b_tweets.csv_replies";
           "data/A/c_tweets.csv_replies"]%string
  /\ (exists trace w1,
        map visited trace
        = ["data/A/a_tweets.csv"; "data/A/b_tweets.csv"; "data/A/c_tweets.csv"]%string
        /\ Forall (run_of (default_method (E := Demo.externals))) trace
        /\ linked (left_by_getfiles (default_method (E := Demo.externals)))
             Demo.w0 trace w1
        /\ getfiles_subfolders (E := Demo.externals)
             (default_method (E := Demo.externals)) ["data/A"]%string [] Demo.w0
           = (w1, Ok (failures trace))
        /\ getfiles (E := Demo.externals) "data"
             (default_method (E := Demo.externals)) Demo.w0
           = (World (files w1) (stdout w1 ++ problems_header :: failures trace),
              Ok VNone))
  /\ (exists trace w1,
        map visited trace
        = ["data/A/a_tweets.csv_retweets"; "data/A/b_tweets.csv_replies";
           "data/A/c_tweets.csv_replies"]%string
        /\ Forall (run_of (harvest_external_data (E := Demo.externals))) trace
        /\ linked (left_by_harvestfiles (H := Demo.externals)) Demo.w0 trace w1
        /\ harvestfiles_subfolders (E := Demo.externals) ["data/A"]%string []
             Demo.w0
           = (w1, Ok (failures trace))
        /\ harvestfiles (E := Demo.externals) "data" Demo.w0
           = (World (files w1) (stdout w1 ++ problems_header :: failures trace),
              Ok VNone)).
Proof.
  split; [vm_compute; reflexivity|]. split; [vm_compute; reflexivity|].
  split; [vm_compute; reflexivity|].
  apply (walkers_record_failures_and_continue (E := Demo.externals) "data"
           (default_method (E := Demo.externals)) Demo.w0 ["data/A"]%string);
    vm_compute; reflexivity.
Defined.

(** C7, the claim as stated fails: on the folder [data] each walker comes to
    its end with one failed file, which it prints, and what it returns is
    [None], not a list. *)
Lemma walkers_return_failures_counterexample :
  (drop 6 (stdout (fst (getfiles (E := Demo.externals) "data"
                          (default_method (E := Demo.externals)) Demo.w0)))
   = [problems_header; "data/A/b_tweets.csv"]%string
   /\ snd (getfiles (E := Demo.externals) "data"
             (default_method (E := Demo.externals)) Demo.w0) = Ok VNone
   /\ snd (getfiles (E := Demo.externals) "data"
             (default_method (E := Demo.externals)) Demo.w0)
      <> Ok (VList [VStr "data/A/b_tweets.csv"]))
  /\ (drop 6 (stdout (fst (harvestfiles (E := Demo.externals) "data" Demo.w0)))
      = [problems_header; "data/A/b_tweets.csv_replies"]%string
      /\ snd (harvestfiles (E := Demo.externals) "data" Demo.w0) = Ok VNone
      /\ snd (harvestfiles (E := Demo.externals) "data" Demo.w0)
         <> Ok (VList [VStr "data/A/b_tweets.csv_replies"])).
Proof.
  repeat split; try (vm_compute; reflexivity); vm_compute; discriminate.
Qed.

Lemma walkers_print_failures_and_return_none_witness :
  (getfiles (E := Demo.externals) "data"
     (default_method (E := Demo.externals)) Demo.w0
   = (Demo.extracted_all, Ok VNone)
   /\ VNone = VNone
   /\ exists subfolders w1 problems,
        subfolders_of (E := Demo.externals) "data" = Ok subfolders
        /\ getfiles_subfolders (E := Demo.externals)
             (default_method (E := Demo.externals)) subfolders [] Demo.w0
           = (w1, Ok problems)
        /\ files Demo.extracted_all = files w1
        /\ stdout Demo.extracted_all = stdout w1 ++ problems_header :: problems)
  /\ (harvestfiles (E := Demo.externals) "data" Demo.w0
      = (Demo.hydrated_all, Ok VNone)
      /\ VNone = VNone
      /\ exists subfolders w1 problems,
           subfolders_of (E := Demo.externals) "data" = Ok subfolders
           /\ harvestfiles_subfolders (E := Demo.externals) subfolders []
                Demo.w0
              = (w1, Ok problems)
           /\ files Demo.hydrated_all = files w1
           /\ stdout Demo.hydrated_all = stdout w1 ++ problems_header :: problems).
Proof.
  destruct (walkers_print_failures_and_return_none (E := Demo.externals) "data"
              (default_method (E := Demo.externals)) Demo.w0) as [Hg Hh].
  split.
  - split; [vm_compute; reflexivity|].
    apply (Hg Demo.extracted_all VNone). vm_compute. reflexivity.
  - split; [vm_compute; reflexivity|].
    apply (Hh Demo.hydrated_all VNone). vm_compute. reflexivity.
Defined.

(** * Further properties of the pipeline *)

Section More.

Context {E : Externals}.

(** ** The extractor *)

(** X1: the quote set of a successful run is exactly the non-empty
    [quoted_tweet_tweetid] of the rows, and the quotes file, which is
    written last, holds it whatever the three output paths are. *)
Theorem quotes_by_tweetid (path : string) (o1 o2 o3 : option string)
    (w w' : world) (v : value) :
  externaltweets path o1 o2 o3 w = (w', Ok v) ->
  exists content retweets replies quotes,
    files w !! path = Some content
    /\ scan (DictReader content) (∅, ∅, ∅) = Ok (retweets, replies, quotes)
    /\ (forall id, id ∈ quotes <->
          exists r, r ∈ stream_items (DictReader content) /\ quote_of r id)
    /\ files w' !! (outpaths path o1 o2 o3).2 = Some (rows_text (elements quotes)).
Proof.
  intros H.
  destruct (externaltweets_files _ _ _ _ _ _ _ H)
    as (content & rt & rp & qt & Hfile & Hscan & _ & _ & Hfiles).
  exists content, rt, rp, qt.
  destruct (scan_inv _ _ _ _ _ _ _ Hscan) as (_ & _ & Hqt).
  split; [exact Hfile|]. split; [exact Hscan|]. split.
  - intros id. rewrite Hqt, elem_of_empty. tauto.
  - destruct (outpaths path o1 o2 o3) as [[p_rt p_rp] p_qt] eqn:Hp.
    rewrite (Hfiles _ _ _ eq_refl). apply lookup_insert_eq.
Qed.

(** The scan returns its sets exactly when the reader comes to its end
    without raising and every row has all five fields as a str. *)
Lemma scan_succeeds_iff (reader : stream row) :
  forall acc,
  (exists acc', scan reader acc = Ok acc')
  <-> stream_end reader = None /\ Forall complete (stream_items reader).
Proof.
  induction reader as [|r reader IH|e]; intros acc; cbn [scan stream_end stream_items].
  - split; [intros _; split; [reflexivity | constructor] | eauto].
  - split.
    + intros [acc' H].
      destruct acc as [[rt rp] qt].
      destruct (scan_row r (rt, rp, qt)) as [[[rt1 rp1] qt1]|e] eqn:Hrow;
        unfold rbind in H; [|discriminate H].
      apply scan_row_inv in Hrow as (_ & _ & _ & Hc).
      destruct (proj1 (IH _) (ex_intro _ acc' H)) as [Hend Hall].
      split; [exact Hend | constructor; assumption].
    + intros [Hend Hall]. apply Forall_cons in Hall as [Hr Hall].
      destruct (scan_row_complete r acc Hr) as [acc1 ->]. unfold rbind.
      apply IH. split; assumption.
  - split; [intros [acc' H]; discriminate H | intros [H _]; discriminate H].
Qed.

(** X2: the extractor can succeed only when the input file exists, the csv
    reader reads it to its end, and no row lacks one of the five fields: one
    short row or one missing column makes the whole file fail, also when no
    predicate would select that row. *)
Theorem extractor_success_needs_complete_rows (path : string)
    (o1 o2 o3 : option string) (w w' : world) (v : value) :
  externaltweets path o1 o2 o3 w = (w', Ok v) ->
  exists content,
    files w !! path = Some content
    /\ stream_end (DictReader content) = None
    /\ Forall complete (stream_items (DictReader content)).
Proof.
  rewrite externaltweets_run. intros H.
  destruct (files w !! path) as [content|]; [|discriminate H].
  exists content. split; [reflexivity|].
  apply (scan_succeeds_iff _ (∅, ∅, ∅)).
  destruct (scan (DictReader content) (∅, ∅, ∅)) as [acc|e]; [eauto | discriminate H].
Qed.

(** X3: when the input file is missing, when the csv reader raises, or when
    a row lacks one of the five fields, the extractor raises before it
    opens an output file: it has written and printed nothing. *)
Theorem extractor_input_failure_writes_nothing (path : string)
    (o1 o2 o3 : option string) (w : world) :
  files w !! path = None
  \/ (exists content,
        files w !! path = Some content
        /\ (stream_end (DictReader content) <> None
            \/ ~ Forall complete (stream_items (DictReader content)))) ->
  exists e, externaltweets path o1 o2 o3 w = (w, Raise e).
Proof.
  rewrite externaltweets_run. intros [->|(content & -> & Hbad)]; [eauto|].
  destruct (scan (DictReader content) (∅, ∅, ∅)) as [acc|e] eqn:Hscan; [|eauto].
  exfalso.
  destruct (proj1 (scan_succeeds_iff _ (∅, ∅, ∅)) (ex_intro _ acc Hscan))
    as [Hend Hall].
  destruct Hbad as [Hbad|Hbad]; contradiction.
Qed.

(** X4: the three sets depend on which rows the file holds, not on their order
    nor on how often a row occurs. *)
Theorem scan_rows_as_a_set (reader1 reader2 : stream row)
    (sets1 sets2 : idset * idset * idset) :
  scan reader1 (∅, ∅, ∅) = Ok sets1 ->
  scan reader2 (∅, ∅, ∅) = Ok sets2 ->
  (forall r, r ∈ stream_items reader1 <-> r ∈ stream_items reader2) ->
  sets1 = sets2.
Proof.
  destruct sets1 as [[rt1 rp1] qt1], sets2 as [[rt2 rp2] qt2].
  intros H1 H2 Hsame.
  destruct (scan_inv _ _ _ _ _ _ _ H1) as (A1 & B1 & C1).
  destruct (scan_inv _ _ _ _ _ _ _ H2) as (A2 & B2 & C2).
  assert (rt1 = rt2) as ->.
  { apply set_eq. intros id. rewrite A1, A2. setoid_rewrite Hsame. reflexivity. }
  assert (rp1 = rp2) as ->.
  { apply set_eq. intros id. rewrite B1, B2. setoid_rewrite Hsame. reflexivity. }
  assert (qt1 = qt2) as ->.
  { apply set_eq. intros id. rewrite C1, C2. setoid_rewrite Hsame. reflexivity. }
  reflexivity.
Qed.

(** ** The hydrator *)

Lemma jsonl_neq (path : string) : path +:+ ".jsonl" <> path.
Proof. apply append_neq. discriminate. Qed.

Lemma log_neq (path : string) : path +:+ ".log" <> path.
Proof. apply append_neq. discriminate. Qed.

(** Whatever its outcome, a call of the hydrator changes no file but its
    records file and its report file. *)
Lemma harvest_external_data_frame (path p : string) (w : world) :
  p <> path +:+ ".jsonl" ->
  p <> path +:+ ".log" ->
  files (fst (harvest_external_data path w)) !! p = files w !! p.
Proof.
  intros Hj Hl. rewrite harvest_external_data_run.
  destruct Twarc as [[]|e]; [|reflexivity].
  destruct (files w !! path) as [content|]; [|reflexivity].
  cbn zeta.
  destruct (stream_end (hydrate (readlines content))) as [e|].
  - cbn [fst files]. rewrite lookup_insert_ne by congruence. reflexivity.
  - destruct (recovered _ _) as [percent|e]; cbn [fst files];
      rewrite !lookup_insert_ne by congruence; reflexivity.
Qed.

(** X7: when the hydration raises after some records, the call raises the same
    exception: the records received so far are in the records file, and the
    report file is not touched. *)
Theorem hydrator_keeps_partial_records (path : string) (w : world)
    (content : string) (e : exn) :
  Twarc = Ok tt ->
  files w !! path = Some content ->
  stream_end (hydrate (readlines content)) = Some e ->
  snd (harvest_external_data path w) = Raise e
  /\ files (fst (harvest_external_data path w)) !! (path +:+ ".jsonl")
     = Some (records_text (stream_items (hydrate (readlines content))))
  /\ files (fst (harvest_external_data path w)) !! (path +:+ ".log")
     = files w !! (path +:+ ".log").
Proof.
  intros Htwarc Hfile Hend.
  rewrite harvest_external_data_run, Htwarc, Hfile. cbn zeta. rewrite Hend.
  cbn [fst snd files]. split; [reflexivity|]. split.
  - apply lookup_insert_eq.
  - apply lookup_insert_ne, not_eq_sym, log_neq_jsonl.
Qed.

(** X8: the records file and the report file are opened for writing, not for
    appending: a successful call gives the same result whatever these two
    files held before. *)
Theorem hydrator_overwrites (path : string) (w w' : world) (v : value)
    (old_records old_report : string) :
  harvest_external_data path w = (w', Ok v) ->
  harvest_external_data path
    (World (<[path +:+ ".log" := old_report]>
              (<[path +:+ ".jsonl" := old_records]> (files w)))
           (stdout w))
  = (w', Ok v).
Proof.
  rewrite !harvest_external_data_run. cbn [files stdout].
  rewrite lookup_insert_ne by apply log_neq.
  rewrite lookup_insert_ne by apply jsonl_neq.
  destruct Twarc as [[]|e]; [|discriminate].
  destruct (files w !! path) as [content|]; [|discriminate].
  cbn zeta.
  destruct (stream_end (hydrate (readlines content))) as [e|]; [discriminate|].
  destruct (recovered _ _) as [percent|e]; [|discriminate].
  intros [= <- <-]. do 2 f_equal. apply map_eq. intros k.
  destruct (decide (k = path +:+ ".log")) as [->|Hl].
  { rewrite !lookup_insert_eq. reflexivity. }
  rewrite !(lookup_insert_ne _ (path +:+ ".log")) by congruence.
  destruct (decide (k = path +:+ ".jsonl")) as [->|Hj].
  { rewrite !lookup_insert_eq. reflexivity. }
  repeat (first [ rewrite (lookup_insert_ne _ (path +:+ ".jsonl")) by congruence
                | rewrite (lookup_insert_ne _ (path +:+ ".log")) by congruence ]).
  reflexivity.
Qed.

Lemma recovered_none (num_lines : Z) :
  0 < num_lines -> recovered 0 num_lines = Ok 0%float.
Proof.
  destruct num_lines as [|n|n]; try lia. intros _. vm_compute. reflexivity.
Qed.

(** X9: only an empty input divides by zero: when the input has lines and the
    hydration ends without a single record, the call succeeds, with an empty
    records file and a report of 0 collected and 0.0 recovered. *)
Theorem hydrator_nothing_recovered (path : string) (w : world) (content : string) :
  Twarc = Ok tt ->
  files w !! path = Some content ->
  content <> ""%string ->
  hydrate (readlines content) = SNil ->
  snd (harvest_external_data path w) = Ok VNone
  /\ files (fst (harvest_external_data path w)) !! (path +:+ ".jsonl")
     = Some ""%string
  /\ files (fst (harvest_external_data path w)) !! (path +:+ ".log")
     = Some ("Total: " +:+ str_int (Z.of_nat (length (readlines content)))
             +:+ ", collected 0, recovered %: " +:+ str_float 0 +:+ nl).
Proof.
  intros Htwarc Hfile Hne Hhyd.
  assert (Hlines : 0 < Z.of_nat (length (readlines content))).
  { destruct (readlines content) eqn:Hl; [|simpl; lia].
    apply readlines_nil in Hl. contradiction. }
  rewrite harvest_external_data_run, Htwarc, Hfile. cbn zeta. rewrite Hhyd.
  cbn [stream_end stream_items length]. change (Z.of_nat 0) with 0.
  rewrite (recovered_none _ Hlines). cbn [fst snd files].
  split; [reflexivity|]. split.
  - rewrite lookup_insert_ne by apply log_neq_jsonl. apply lookup_insert_eq.
  - rewrite lookup_insert_eq. unfold report_line.
    rewrite !append_assoc. reflexivity.
Qed.

(** ** Indices and slices *)

Lemma substring_all (s : string) : String.substring 0 (String.length s) s = s.
Proof. induction s as [|a s IH]; simpl; [reflexivity | now rewrite IH]. Qed.

Lemma substring_prefix (s t : string) :
  String.substring 0 (String.length s) (s +:+ t) = s.
Proof.
  induction s as [|a s IH].
  - destruct t; reflexivity.
  - rewrite append_cons. simpl. now rewrite IH.
Qed.

Lemma substring_app (s t : string) :
  forall n, (n <= String.length s)%nat ->
  String.substring n (String.length (s +:+ t) - n) (s +:+ t)
  = String.substring n (String.length s - n) s +:+ t.
Proof.
  induction s as [|a s IH]; intros n Hn.
  - simpl in Hn. assert (n = 0%nat) as -> by lia.
    change ("" +:+ t) with t. rewrite Nat.sub_0_r, substring_all. reflexivity.
  - destruct n as [|n].
    + rewrite !Nat.sub_0_r, !substring_all. reflexivity.
    + rewrite append_cons. simpl. apply IH. simpl in Hn. lia.
Qed.

Lemma length_substring (s : string) :
  forall n, (n <= String.length s)%nat ->
  String.length (String.substring n (String.length s - n) s)
  = (String.length s - n)%nat.
Proof.
  induction s as [|a s IH]; intros n Hn.
  - destruct n; reflexivity.
  - destruct n as [|n].
    + rewrite Nat.sub_0_r, substring_all. reflexivity.
    + simpl. apply IH. simpl in Hn. lia.
Qed.

Lemma take_str_app (s t : string) :
  take_str (Z.of_nat (String.length s)) (s +:+ t) = s.
Proof. unfold take_str. rewrite Nat2Z.id. apply substring_prefix. Qed.

Lemma substring_end (s : string) :
  String.substring (String.length s) 0 s = ""%string.
Proof. induction s as [|a s IH]; [reflexivity | exact IH]. Qed.

Lemma drop_str_app (s t : string) :
  drop_str (Z.of_nat (String.length s)) (s +:+ t) = t.
Proof.
  unfold drop_str. rewrite Nat2Z.id, substring_app by lia.
  rewrite Nat.sub_diag, substring_end. reflexivity.
Qed.

Lemma drop_str_0 (s : string) : drop_str 0 s = s.
Proof. apply (drop_str_app "" s). Qed.

Lemma drop_str_app_le (s t : string) (k : Z) :
  0 <= k <= Z.of_nat (String.length s) ->
  drop_str k (s +:+ t) = drop_str k s +:+ t.
Proof. intros Hk. unfold drop_str. apply substring_app. lia. Qed.

Lemma length_drop_str (s : string) (k : Z) :
  0 <= k <= Z.of_nat (String.length s) ->
  String.length (drop_str k s) = (String.length s - Z.to_nat k)%nat.
Proof. intros Hk. unfold drop_str. apply length_substring. lia. Qed.

Lemma rfind_from_app (c : ascii) (s1 s2 : string) :
  forall i last,
  rfind_from c (s1 +:+ s2) i last
  = rfind_from c s2 (i + Z.of_nat (String.length s1)) (rfind_from c s1 i last).
Proof.
  induction s1 as [|a s1 IH]; intros i last.
  - simpl. rewrite Z.add_0_r. reflexivity.
  - rewrite append_cons. cbn [rfind_from String.length]. rewrite IH.
    f_equal. lia.
Qed.

Lemma rfind_from_none (c : ascii) (s : string) :
  forall i last, has_char c s = false -> rfind_from c s i last = last.
Proof.
  induction s as [|a s IH]; intros i last H; simpl in *; [reflexivity|].
  apply orb_false_iff in H as [-> H]. apply IH, H.
Qed.

(** [rfind] gives the place of the last occurrence. *)
Lemma rfind_from_spec (c : ascii) (s : string) :
  forall i last,
  (rfind_from c s i last = last /\ has_char c s = false)
  \/ (exists s1 s2,
        s = s1 +:+ String c s2 /\ has_char c s2 = false
        /\ rfind_from c s i last = i + Z.of_nat (String.length s1)).
Proof.
  induction s as [|a s IH]; intros i last; cbn [rfind_from has_char].
  - left. split; reflexivity.
  - destruct (IH (i + 1) (if Ascii.eqb a c then i else last))
      as [[Hr Hn]|(s1 & s2 & -> & Hn & Hr)].
    + destruct (Ascii.eqb a c) eqn:Hac.
      * right. apply Ascii.eqb_eq in Hac as ->. exists ""%string, s.
        simpl. rewrite Z.add_0_r. auto.
      * left. rewrite Hn. auto.
    + right. exists (String a s1), s2. rewrite append_cons.
      split; [reflexivity|]. split; [exact Hn|]. rewrite Hr.
      cbn [String.length]. lia.
Qed.

Lemma rfind_spec (c : ascii) (s : string) :
  (rfind c s = -1 /\ has_char c s = false)
  \/ (exists s1 s2,
        s = s1 +:+ String c s2 /\ has_char c s2 = false
        /\ rfind c s = Z.of_nat (String.length s1)).
Proof. apply (rfind_from_spec c s 0 (-1)). Qed.

Lemma rfind_bounds (c : ascii) (s : string) :
  -1 <= rfind c s < Z.of_nat (String.length s).
Proof.
  destruct (rfind_spec c s) as [[-> _]|(s1 & s2 & -> & _ & ->)].
  - lia.
  - rewrite length_append. simpl. lia.
Qed.

Lemma rfind_app_none (c : ascii) (s t : string) :
  has_char c t = false -> rfind c (s +:+ t) = rfind c s.
Proof.
  intros H. unfold rfind. rewrite rfind_from_app. apply rfind_from_none, H.
Qed.

(** ** Paths *)

Lemma has_char_app (c : ascii) (s t : string) :
  has_char c (s +:+ t) = has_char c s || has_char c t.
Proof.
  induction s as [|a s IH]; [reflexivity|].
  rewrite append_cons. simpl. rewrite IH, orb_assoc. reflexivity.
Qed.

Lemma startswith_has_char (c : ascii) (s : string) :
  has_char c s = false -> startswith c s = false.
Proof.
  destruct s as [|a s]; [reflexivity|]. simpl.
  intros H. apply orb_false_iff in H as [H _]. exact H.
Qed.

Lemma endswith_inv (c : ascii) (s : string) :
  endswith c s = true -> exists s', s = s' +:+ String c "".
Proof.
  induction s as [|a s IH]; [discriminate|].
  destruct s as [|b s].
  - simpl. intros H. apply Ascii.eqb_eq in H as ->. exists ""%string. reflexivity.
  - intros H. destruct (IH H) as [s' Hs]. exists (String a s').
    rewrite append_cons, <- Hs. reflexivity.
Qed.

Lemma endswith_app_char (c : ascii) (s : string) :
  endswith c (s +:+ String c "") = true.
Proof.
  induction s as [|a s IH]; [apply Ascii.eqb_refl|].
  rewrite append_cons.
  destruct (s +:+ String c "") as [|b u] eqn:Hu; [destruct s; discriminate Hu|].
  exact IH.
Qed.

(** [os.path.join(a, b)] ends with [b], after nothing or after a part that
    ends with a slash. *)
Lemma os_path_join_prefix (a b : string) :
  exists prefix,
    os_path_join a b = prefix +:+ b
    /\ (prefix = ""%string \/ endswith slash prefix = true).
Proof.
  unfold os_path_join.
  destruct (startswith slash b); [exists ""%string; auto|].
  destruct (String.eqb a "") eqn:Ha.
  - apply String.eqb_eq in Ha as ->. exists ""%string. auto.
  - destruct (endswith slash a) eqn:Hend; simpl.
    + exists a. auto.
    + exists (a +:+ String slash ""). rewrite append_assoc.
      split; [reflexivity|]. right. apply endswith_app_char.
Qed.

(** The file name [os.path.split] returns holds no slash. *)
Lemma os_path_split_tail (p : string) :
  has_char slash (snd (os_path_split p)) = false.
Proof.
  unfold os_path_split. cbn [snd].
  destruct (rfind_spec slash p) as [[-> Hn]|(s1 & s2 & -> & Hn & ->)].
  - change (-1 + 1) with 0. rewrite drop_str_0. exact Hn.
  - replace (Z.of_nat (String.length s1) + 1)
      with (Z.of_nat (String.length (s1 +:+ String slash "")))
      by (rewrite length_append; simpl; lia).
    replace (s1 +:+ String slash s2) with ((s1 +:+ String slash "") +:+ s2)
      by (rewrite append_assoc; reflexivity).
    rewrite drop_str_app. exact Hn.
Qed.

(** The file name of a path that ends with a name without slash. *)
Lemma os_path_split_app (prefix t : string) :
  prefix = ""%string \/ endswith slash prefix = true ->
  has_char slash t = false ->
  snd (os_path_split (prefix +:+ t)) = t.
Proof.
  intros Hp Ht. unfold os_path_split. cbn [snd].
  rewrite rfind_app_none by exact Ht.
  destruct Hp as [->|Hend].
  - change (rfind slash "" + 1) with 0. apply drop_str_0.
  - destruct (endswith_inv _ _ Hend) as [s' ->].
    unfold rfind. rewrite rfind_from_app. cbn [rfind_from].
    rewrite Ascii.eqb_refl.
    replace (0 + Z.of_nat (String.length s') + 1)
      with (Z.of_nat (String.length (s' +:+ String slash "")))
      by (rewrite length_append; simpl; lia).
    apply drop_str_app.
Qed.

(** The default output paths end with their suffix and differ from the
    input path. *)
Lemma default_outpath (path suffix : string) :
  has_char slash suffix = false -> suffix <> ""%string ->
  ends_with suffix
    (os_path_join (os_path_split path).1 ((os_path_split path).2 +:+ suffix))
  /\ os_path_join (os_path_split path).1 ((os_path_split path).2 +:+ suffix)
     <> path.
Proof.
  intros Hs Hne.
  destruct (os_path_join_prefix (os_path_split path).1
              ((os_path_split path).2 +:+ suffix)) as (prefix & Hjoin & Hp).
  rewrite Hjoin. split.
  - exists (prefix +:+ (os_path_split path).2). rewrite append_assoc. reflexivity.
  - intros Heq. apply (f_equal (fun q => snd (os_path_split q))) in Heq.
    rewrite os_path_split_app in Heq.
    + apply append_neq in Heq; [exact Heq | exact Hne].
    + exact Hp.
    + rewrite has_char_app, os_path_split_tail, Hs. reflexivity.
Qed.

Lemma outpaths_default (path : string) :
  forall p_rt p_rp p_qt,
  outpaths path None None None = (p_rt, p_rp, p_qt) ->
  (ends_with "_retweets" p_rt /\ p_rt <> path)
  /\ (ends_with "_replies" p_rp /\ p_rp <> path)
  /\ (ends_with "_quotes" p_qt /\ p_qt <> path).
Proof.
  intros p_rt p_rp p_qt. unfold outpaths. cbn [default].
  intros [= <- <- <-].
  repeat split; apply default_outpath; (reflexivity || discriminate).
Qed.

(** ** Running the extractor again *)

(** X5: the default output paths are never the input path, so a successful
    run of the extractor leaves its input as it was, and a second run on
    what the first one left succeeds on the same three sets: each of the
    three files holds, before and after it, one line per identifier of the
    same set (nothing is said of the order of the lines), and the same
    summary is printed again. *)
Theorem extractor_rerun_same_sets (path : string) (w w1 : world) (v : value) :
  externaltweets path None None None w = (w1, Ok v) ->
  exists content retweets replies quotes p_rt p_rp p_qt w2,
    outpaths path None None None = (p_rt, p_rp, p_qt)
    /\ files w !! path = Some content
    /\ files w1 !! path = Some content
    /\ scan (DictReader content) (∅, ∅, ∅) = Ok (retweets, replies, quotes)
    /\ externaltweets path None None None w1 = (w2, Ok VNone)
    /\ (forall p X, (p, X) ∈ [(p_rt, retweets); (p_rp, replies); (p_qt, quotes)] ->
          exists lines1 lines2,
            lines1 ≡ₚ elements X /\ lines2 ≡ₚ elements X
            /\ files w1 !! p = Some (rows_text lines1)
            /\ files w2 !! p = Some (rows_text lines2))
    /\ (forall p, p <> p_rt -> p <> p_rp -> p <> p_qt ->
          files w2 !! p = files w1 !! p)
    /\ exists line, stdout w1 = stdout w ++ [line] /\ stdout w2 = stdout w1 ++ [line].
Proof.
  intros H.
  destruct (externaltweets_files _ _ _ _ _ _ _ H)
    as (content & rt & rp & qt & Hfile & Hscan & _ & Hout & Hfiles).
  destruct (outpaths path None None None) as [[p_rt p_rp] p_qt] eqn:Hp.
  destruct (outpaths_default_distinct _ _ _ _ Hp) as (D1 & D2 & D3).
  destruct (outpaths_default _ _ _ _ Hp) as ((_ & N1) & (_ & N2) & (_ & N3)).
  specialize (Hfiles _ _ _ eq_refl).
  assert (Hfile1 : files w1 !! path = Some content).
  { rewrite Hfiles, !lookup_insert_ne by congruence. exact Hfile. }
  assert (Hrun : externaltweets path None None None w1
                 = (World (<[p_qt := rows_text (elements qt)]>
                            (<[p_rp := rows_text (elements rp)]>
                              (<[p_rt := rows_text (elements rt)]> (files w1))))
                          (stdout w1 ++ [summary (snd (os_path_split path)) rt rp qt]),
                    Ok VNone)).
  { rewrite externaltweets_run, Hfile1, Hscan, Hp. reflexivity. }
  exists content, rt, rp, qt, p_rt, p_rp, p_qt.
  eexists. split; [reflexivity|]. split; [exact Hfile|]. split; [exact Hfile1|].
  split; [exact Hscan|]. split; [exact Hrun|]. cbn [files stdout].
  split; [|split].
  - intros p X Hin. exists (elements X), (elements X).
    split; [reflexivity|]. split; [reflexivity|]. rewrite Hfiles.
    rewrite !elem_of_cons, elem_of_nil in Hin.
    destruct Hin as [[= -> ->]|[[= -> ->]|[[= -> ->]|[]]]];
      repeat (first [ rewrite lookup_insert_eq
                    | rewrite lookup_insert_ne by congruence ]); auto.
  - intros p P1 P2 P3. rewrite !lookup_insert_ne by congruence. reflexivity.
  - eexists. split; [exact Hout | reflexivity].
Qed.

(** ** What the walks leave alone *)

Lemma getfiles_files_frame (method : string -> Py value) (p : string) :
  (forall f w, files (fst (method f w)) !! p = files w !! p) ->
  forall fs problems w,
  files (fst (getfiles_files method fs problems w)) !! p = files w !! p.
Proof.
  intros Hm. induction fs as [|f fs IH]; intros problems w; [reflexivity|].
  cbn [getfiles_files]. unfold bind at 1, print at 1. unfold bind at 1, try.
  specialize (Hm f (announced w f)). unfold announced in Hm.
  destruct (method f _) as [w2 [v|e]]; cbn [fst files] in Hm.
  - rewrite IH. exact Hm.
  - unfold bind at 1, print at 1. rewrite IH. exact Hm.
Qed.

Lemma getfiles_frame (method : string -> Py value) (p : string) :
  (forall f w, files (fst (method f w)) !! p = files w !! p) ->
  forall datafolder w,
  files (fst (getfiles datafolder method w)) !! p = files w !! p.
Proof.
  intros Hm datafolder w. rewrite getfiles_run.
  destruct (subfolders_of datafolder) as [subfolders|e]; [|reflexivity].
  assert (Hloop : forall problems w0,
            files (fst (getfiles_subfolders method subfolders problems w0)) !! p
            = files w0 !! p).
  { induction subfolders as [|sub subfolders IH]; intros problems w0; [reflexivity|].
    cbn [getfiles_subfolders]. unfold bind at 1, lift at 1.
    destruct (tweets_files sub) as [fs|e]; [|reflexivity].
    unfold bind at 1.
    pose proof (getfiles_files_frame method p Hm fs problems w0) as Hfs.
    destruct (getfiles_files method fs problems w0) as [w1 [problems1|e]];
      cbn [fst] in Hfs; [|exact Hfs].
    rewrite IH. exact Hfs. }
  specialize (Hloop [] w).
  destruct (getfiles_subfolders method subfolders [] w) as [w1 [problems|e]];
    exact Hloop.
Qed.

Lemma default_method_frame (p : string) :
  ~ ends_with "_retweets" p -> ~ ends_with "_replies" p -> ~ ends_with "_quotes" p ->
  forall f w, files (fst (default_method f w)) !! p = files w !! p.
Proof.
  intros Hrt Hrp Hqt f w. unfold default_method. rewrite externaltweets_run.
  destruct (files w !! f) as [content|]; [|reflexivity].
  destruct (scan (DictReader content) (∅, ∅, ∅)) as [[[rt rp] qt]|e]; [|reflexivity].
  destruct (outpaths f None None None) as [[p_rt p_rp] p_qt] eqn:Hp.
  destruct (outpaths_default _ _ _ _ Hp) as ((E1 & _) & (E2 & _) & (E3 & _)).
  cbn [fst files]. rewrite !lookup_insert_ne by (intros ->; contradiction).
  reflexivity.
Qed.

(** X6: the extraction walk, whatever happens in it, changes no file whose name
    does not end with one of the three suffixes of the extractor: the
    [_tweets] files it reads are left as they were. *)
Theorem extraction_walk_keeps_other_files (datafolder p : string) (w : world) :
  ~ ends_with "_retweets" p -> ~ ends_with "_replies" p -> ~ ends_with "_quotes" p ->
  files (fst (getfiles datafolder default_method w)) !! p = files w !! p.
Proof.
  intros Hrt Hrp Hqt. apply getfiles_frame.
  apply default_method_frame; assumption.
Qed.

Lemma harvestfiles_files_frame (p : string) (fs : list string) :
  (forall f, f ∈ fs -> p <> f +:+ ".jsonl" /\ p <> f +:+ ".log") ->
  forall problems w,
  files (fst (harvestfiles_files fs problems w)) !! p = files w !! p.
Proof.
  induction fs as [|f fs IH]; intros Hfs problems w; [reflexivity|].
  cbn [harvestfiles_files]. unfold bind at 1, print at 1. unfold bind at 1, try.
  destruct (Hfs f (list_elem_of_here _ _)) as [Hj Hl].
  pose proof (harvest_external_data_frame f p (announced w f) Hj Hl) as Hm.
  unfold announced in Hm.
  assert (Hrest : forall g, g ∈ fs -> p <> g +:+ ".jsonl" /\ p <> g +:+ ".log")
    by (intros g Hg; apply Hfs, list_elem_of_further, Hg).
  destruct (harvest_external_data f _) as [w2 [v|e]]; cbn [fst files] in Hm;
    rewrite (IH Hrest); exact Hm.
Qed.

Lemma harvestfiles_subfolders_frame (p : string) (subfolders : list string) :
  forall fs,
  selected external_files subfolders = Ok fs ->
  (forall f, f ∈ fs -> p <> f +:+ ".jsonl" /\ p <> f +:+ ".log") ->
  forall problems w,
  files (fst (harvestfiles_subfolders subfolders problems w)) !! p = files w !! p.
Proof.
  induction subfolders as [|sub subfolders IH]; intros fs Hsel Hfs problems w;
    [reflexivity|].
  cbn [selected] in Hsel.
  destruct (external_files sub) as [fs1|e] eqn:Hsub; [|discriminate Hsel].
  destruct (selected external_files subfolders) as [fs2|e]; [|discriminate Hsel].
  injection Hsel as <-.
  cbn [harvestfiles_subfolders]. rewrite Hsub. unfold bind at 1, lift at 1.
  unfold bind at 1.
  assert (H1 : forall f, f ∈ fs1 -> p <> f +:+ ".jsonl" /\ p <> f +:+ ".log")
    by (intros f Hf; apply Hfs, elem_of_app; auto).
  assert (H2 : forall f, f ∈ fs2 -> p <> f +:+ ".jsonl" /\ p <> f +:+ ".log")
    by (intros f Hf; apply Hfs, elem_of_app; auto).
  pose proof (harvestfiles_files_frame p fs1 H1 problems w) as Hloop.
  destruct (harvestfiles_files fs1 problems w) as [w1 [problems1|e]];
    cbn [fst] in Hloop; [|exact Hloop].
  rewrite (IH fs2 eq_refl H2). exact Hloop.
Qed.

(** The walk of the hydrator leaves alone, whatever the listings give, every
    path that is not some path with [.jsonl] or [.log] added. *)
Lemma harvestfiles_frame (datafolder p : string) (w : world) :
  ~ ends_with ".jsonl" p -> ~ ends_with ".log" p ->
  files (fst (harvestfiles datafolder w)) !! p = files w !! p.
Proof.
  intros Hj Hl. rewrite harvestfiles_run.
  destruct (subfolders_of datafolder) as [subfolders|e]; [|reflexivity].
  assert (Hany : forall (fs : list string) f,
            f ∈ fs -> p <> f +:+ ".jsonl" /\ p <> f +:+ ".log").
  { intros fs f _. split; intros ->; [apply Hj | apply Hl]; eexists; reflexivity. }
  assert (Hloop : forall problems w0,
            files (fst (harvestfiles_subfolders subfolders problems w0)) !! p
            = files w0 !! p).
  { induction subfolders as [|sub subfolders IH]; intros problems w0;
      [reflexivity|].
    cbn [harvestfiles_subfolders]. unfold bind at 1, lift at 1.
    destruct (external_files sub) as [fs|e]; [|reflexivity].
    unfold bind at 1.
    pose proof (harvestfiles_files_frame p fs (Hany fs) problems w0) as Hfs.
    destruct (harvestfiles_files fs problems w0) as [w1 [problems1|e]];
      cbn [fst] in Hfs; [|exact Hfs].
    rewrite IH. exact Hfs. }
  specialize (Hloop [] w).
  destruct (harvestfiles_subfolders subfolders [] w) as [w1 [problems|e]];
    exact Hloop.
Qed.

(** X10: whatever its outcome, a call of the hydrator changes no file but
    its own records file and its own report file; a hydration walk that has
    its listings changes no file but the records files and the report files
    of the lists it selects; and a hydration walk, whatever its listings
    give, changes no file whose path does not end with [.jsonl] or [.log].
    The lists of identifiers, and the records and reports of other lists,
    are left as they were. *)
Theorem hydration_keeps_other_files (w : world) :
  (forall path p,
     p <> path +:+ ".jsonl" -> p <> path +:+ ".log" ->
     files (fst (harvest_external_data path w)) !! p = files w !! p)
  /\ (forall datafolder subfolders fs p,
        subfolders_of datafolder = Ok subfolders ->
        selected external_files subfolders = Ok fs ->
        (forall f, f ∈ fs -> p <> f +:+ ".jsonl" /\ p <> f +:+ ".log") ->
        files (fst (harvestfiles datafolder w)) !! p = files w !! p)
  /\ (forall datafolder p,
        ~ ends_with ".jsonl" p -> ~ ends_with ".log" p ->
        files (fst (harvestfiles datafolder w)) !! p = files w !! p).
Proof.
  split; [|split].
  - intros path p Hj Hl. apply harvest_external_data_frame; assumption.
  - intros datafolder subfolders fs p Hsub Hsel Hfs.
    rewrite harvestfiles_run, Hsub.
    pose proof (harvestfiles_subfolders_frame p subfolders fs Hsel Hfs [] w)
      as Hloop.
    destruct (harvestfiles_subfolders subfolders [] w) as [w1 [problems|e]];
      exact Hloop.
  - intros datafolder p Hj Hl. apply harvestfiles_frame; assumption.
Qed.

(** ** The exceptions that leave a walk *)




(** ** The names the walks select *)

Lemma has_non_dot_app (s t : string) :
  forall n, (n <= String.length s)%nat ->
  has_non_dot (s +:+ t) n = has_non_dot s n.
Proof.
  induction s as [|a s IH]; intros n Hn.
  - simpl in Hn. assert (n = 0%nat) as -> by lia. destruct t; reflexivity.
  - destruct n as [|n]; [reflexivity|].
    rewrite append_cons. cbn [has_non_dot]. rewrite IH by (simpl in Hn; lia).
    reflexivity.
Qed.

(** The extension of a path that ends with a dot and a part without dot and
    slash is that dot and part, or nothing when the file name has only dots
    before it. *)
Lemma splitext_dot_suffix (q e : string) :
  has_char dot e = false -> has_char slash e = false ->
  snd (os_path_splitext (q +:+ String dot e)) = String dot e
  \/ snd (os_path_splitext (q +:+ String dot e)) = ""%string.
Proof.
  intros Hd Hs. unfold os_path_splitext.
  assert (Hdot : rfind dot (q +:+ String dot e) = Z.of_nat (String.length q)).
  { unfold rfind. rewrite rfind_from_app. cbn [rfind_from].
    rewrite Ascii.eqb_refl, rfind_from_none by exact Hd. lia. }
  rewrite Hdot.
  destruct (_ && _); cbn [snd]; [left | right; reflexivity].
  apply drop_str_app.
Qed.

(** A suffix without dot and slash, added to a path that has an extension,
    is added to the extension. *)
Lemma splitext_app (p suffix : string) :
  has_char dot suffix = false -> has_char slash suffix = false ->
  snd (os_path_splitext p) <> ""%string ->
  snd (os_path_splitext (p +:+ suffix)) = snd (os_path_splitext p) +:+ suffix.
Proof.
  intros Hd Hs Hext. unfold os_path_splitext in *.
  rewrite !rfind_app_none by assumption.
  pose proof (rfind_bounds slash p) as Bs.
  pose proof (rfind_bounds dot p) as Bd.
  destruct (rfind slash p <? rfind dot p) eqn:Hlt.
  - apply Z.ltb_lt in Hlt.
    rewrite drop_str_app_le by lia.
    rewrite has_non_dot_app by (rewrite length_drop_str by lia; lia).
    cbn [andb] in *.
    destruct (has_non_dot _ _); cbn [snd] in *; [|congruence].
    apply drop_str_app_le. lia.
  - cbn [andb snd] in Hext. congruence.
Qed.

Lemma os_path_join_app (a b suffix : string) :
  b <> ""%string -> os_path_join a (b +:+ suffix) = os_path_join a b +:+ suffix.
Proof.
  intros Hb. unfold os_path_join. destruct b as [|c b]; [congruence|].
  rewrite append_cons. cbn [startswith].
  destruct (Ascii.eqb c slash); [reflexivity|].
  destruct (String.eqb a "" || endswith slash a);
    rewrite ?append_assoc, ?append_cons; reflexivity.
Qed.

Lemma is_tweets_csv_name (dir : string) (f : DirEntry) :
  is_tweets_csv dir f = true ->
  name f <> ""%string
  /\ snd (os_path_splitext (entry_path dir f)) = ".csv"%string.
Proof.
  unfold is_tweets_csv. intros H. apply andb_true_iff in H as [Hfind Hext].
  split.
  - intros Hname. unfold str_DirEntry in Hfind. rewrite Hname in Hfind.
    discriminate Hfind.
  - apply String.eqb_eq, Hext.
Qed.

(** The file name of a default output path of the extractor, for a
    directory entry: the name of the entry with the suffix. *)
Lemma default_outpath_name (dir : string) (f : DirEntry) (suffix : string) :
  has_char slash (name f) = false -> has_char slash suffix = false ->
  snd (os_path_split
         (os_path_join (os_path_split (entry_path dir f)).1
            ((os_path_split (entry_path dir f)).2 +:+ suffix)))
  = name f +:+ suffix.
Proof.
  intros Hn Hs. unfold entry_path.
  destruct (os_path_join_prefix dir (name f)) as (prefix & -> & Hp).
  rewrite (os_path_split_app prefix (name f) Hp Hn).
  destruct (os_path_join_prefix (os_path_split (prefix +:+ name f)).1
              (name f +:+ suffix)) as (prefix' & -> & Hp').
  apply os_path_split_app; [exact Hp'|].
  rewrite has_char_app, Hn, Hs. reflexivity.
Qed.

(** X12: the naming convention that links the two walks: for every file the
    extraction walk selects, the extractor names its three lists after the
    file, with a suffix; the names of the retweets and replies lists are
    names the hydration walk selects, the name of the quotes list is not,
    and none of the three is selected again by the extraction walk. *)
Theorem extractor_outputs_feed_the_hydration_walk (dir : string) (f : DirEntry)
    (d : bool) :
  has_char slash (name f) = false ->
  is_tweets_csv dir f = true ->
  (let '(p_rt, p_rp, p_qt) := outpaths (entry_path dir f) None None None in
   snd (os_path_split p_rt) = name f +:+ "_retweets"
   /\ snd (os_path_split p_rp) = name f +:+ "_replies"
   /\ snd (os_path_split p_qt) = name f +:+ "_quotes")
  /\ is_external_list dir {| name := name f +:+ "_retweets"; is_dir := d |} = true
  /\ is_external_list dir {| name := name f +:+ "_replies"; is_dir := d |} = true
  /\ is_external_list dir {| name := name f +:+ "_quotes"; is_dir := d |} = false
  /\ is_tweets_csv dir {| name := name f +:+ "_retweets"; is_dir := d |} = false
  /\ is_tweets_csv dir {| name := name f +:+ "_replies"; is_dir := d |} = false
  /\ is_tweets_csv dir {| name := name f +:+ "_quotes"; is_dir := d |} = false.
Proof.
  intros Hslash H. destruct (is_tweets_csv_name _ _ H) as [Hname Hext].
  split.
  { unfold outpaths. cbn [default].
    repeat split; apply default_outpath_name; (exact Hslash || reflexivity). }
  assert (Hsuf : forall suffix,
            has_char dot suffix = false -> has_char slash suffix = false ->
            snd (os_path_splitext
                   (entry_path dir {| name := name f +:+ suffix; is_dir := d |}))
            = ".csv" +:+ suffix).
  { intros suffix Hd Hs. unfold entry_path in *. cbn [name].
    rewrite os_path_join_app by exact Hname.
    rewrite splitext_app by (try assumption; rewrite Hext; discriminate).
    rewrite Hext. reflexivity. }
  unfold is_external_list, is_tweets_csv.
  rewrite !Hsuf by reflexivity.
  repeat split; try reflexivity; apply andb_false_r.
Qed.

(** X13: the files the hydrator writes are selected by neither walk. *)
Theorem walks_skip_hydrator_outputs (dir : string) (f : DirEntry) :
  ends_with ".jsonl" (name f) \/ ends_with ".log" (name f) ->
  is_tweets_csv dir f = false /\ is_external_list dir f = false.
Proof.
  intros H.
  assert (Hext : snd (os_path_splitext (entry_path dir f)) = ".jsonl"%string
                 \/ snd (os_path_splitext (entry_path dir f)) = ".log"%string
                 \/ snd (os_path_splitext (entry_path dir f)) = ""%string).
  { unfold entry_path.
    destruct (os_path_join_prefix dir (name f)) as (prefix & -> & _).
    destruct H as [[stem ->]|[stem ->]]; rewrite <- append_assoc.
    - pose proof (splitext_dot_suffix (prefix +:+ stem) "jsonl" eq_refl eq_refl)
        as Hx.
      change (String dot "jsonl") with ".jsonl"%string in Hx.
      destruct Hx as [->| ->]; auto.
    - pose proof (splitext_dot_suffix (prefix +:+ stem) "log" eq_refl eq_refl)
        as Hx.
      change (String dot "log") with ".log"%string in Hx.
      destruct Hx as [->| ->]; auto. }
  unfold is_tweets_csv, is_external_list.
  destruct Hext as [->|[->| ->]]; split; try reflexivity; apply andb_false_r.
Qed.

(** ** The script *)

Lemma endswith_app (c : ascii) (s t : string) :
  t <> ""%string -> endswith c (s +:+ t) = endswith c t.
Proof.
  intros Ht. induction s as [|a s IH]; [reflexivity|].
  rewrite append_cons.
  destruct (s +:+ t) as [|b u] eqn:Hu.
  - destruct s as [|a' s]; [change ("" +:+ t) with t in Hu; congruence|].
    rewrite append_cons in Hu. discriminate Hu.
  - exact IH.
Qed.

Lemma ends_with_endswith (suffix s : string) (c : ascii) :
  ends_with suffix s -> suffix <> ""%string ->
  endswith c suffix = true -> endswith c s = true.
Proof. intros [stem ->] Hne Hc. rewrite endswith_app by exact Hne. exact Hc. Qed.

Lemma replies_list_not_output :
  ~ ends_with ".jsonl" replies_list /\ ~ ends_with ".log" replies_list.
Proof.
  split; intros H.
  - apply (ends_with_endswith _ _ "l"%char) in H; [discriminate H | discriminate | reflexivity].
  - apply (ends_with_endswith _ _ "g"%char) in H; [discriminate H | discriminate | reflexivity].
Qed.

Lemma hydrate_py_run (w : world) :
  hydrate_py w
  = match harvestfiles "./demodata" w with
    | (w1, Raise e) => (w1, Raise e)
    | (w1, Ok _) =>
        match harvest_external_data replies_list w1 with
        | (w2, Raise e) => (w2, Raise e)
        | (w2, Ok _) => (w2, Ok VNone)
        end
    end.
Proof.
  unfold hydrate_py. unfold bind at 1.
  destruct (harvestfiles "./demodata" w) as [w1 [v|e]]; [|reflexivity].
  unfold bind at 1. fold replies_list.
  destruct (harvest_external_data replies_list w1) as [w2 [v2|e]]; reflexivity.
Qed.

(** X14: the tolerance of the walk does not extend to the last statement of the
    script: with the folders listed and the connection made, the script
    ends with [FileNotFoundError] when the list of replies it names is
    missing, and with the division error when that list is empty, whatever
    the walk did with the same file before. *)
Theorem script_last_call_is_unprotected (w : world) (subfolders fs : list string) :
  subfolders_of "./demodata" = Ok subfolders ->
  selected external_files subfolders = Ok fs ->
  Twarc = Ok tt ->
  (files w !! replies_list = None ->
   snd (hydrate_py w) = Raise (FileNotFoundError replies_list))
  /\ (files w !! replies_list = Some ""%string ->
      stream_end (hydrate []) = None ->
      snd (hydrate_py w) = Raise ZeroDivisionError).
Proof.
  intros Hsub Hsel Htwarc.
  destruct (harvestfiles_subfolders_trace subfolders [] w _ Hsel)
    as (trace & w1 & Hloop & _).
  destruct replies_list_not_output as [Hj Hl].
  pose proof (harvestfiles_frame "./demodata" replies_list w Hj Hl) as Hframe.
  rewrite hydrate_py_run. rewrite harvestfiles_run, Hsub, Hloop in *.
  cbn [fst files] in Hframe.
  rewrite harvest_external_data_run, Htwarc. cbn [files]. rewrite Hframe.
  split.
  - intros ->. reflexivity.
  - intros -> Hend. change (readlines "") with (@nil string). cbn zeta.
    rewrite Hend. cbn [length]. change (Z.of_nat 0) with 0.
    rewrite recovered_zero. reflexivity.
Qed.

End More.

(** * The further properties on the concrete installations *)

Lemma quotes_by_tweetid_witness :
  externaltweets (E := Demo.externals) "data/A/a_tweets.csv" None None None Demo.w0
  = (Demo.extracted, Ok VNone)
  /\ exists content retweets replies quotes,
       files Demo.w0 !! "data/A/a_tweets.csv"%string = Some content
       /\ scan (Demo.reader content) (∅, ∅, ∅) = Ok (retweets, replies, quotes)
       /\ (forall id, id ∈ quotes <->
             exists r, r ∈ stream_items (Demo.reader content) /\ quote_of r id)
       /\ files Demo.extracted !! (outpaths "data/A/a_tweets.csv" None None None).2
          = Some (rows_text (H := Demo.externals) (elements quotes)).
Proof.
  split; [vm_compute; reflexivity|].
  apply (quotes_by_tweetid (E := Demo.externals)
           "data/A/a_tweets.csv" None None None Demo.w0 Demo.extracted VNone).
  vm_compute. reflexivity.
Defined.

Lemma extractor_success_needs_complete_rows_witness :
  externaltweets (E := Demo.externals) "data/A/a_tweets.csv" None None None Demo.w0
  = (Demo.extracted, Ok VNone)
  /\ exists content,
       files Demo.w0 !! "data/A/a_tweets.csv"%string = Some content
       /\ stream_end (Demo.reader content) = None
       /\ Forall complete (stream_items (Demo.reader content)).
Proof.
  split; [vm_compute; reflexivity|].
  apply (extractor_success_needs_complete_rows (E := Demo.externals)
           "data/A/a_tweets.csv" None None None Demo.w0 Demo.extracted VNone).
  vm_compute. reflexivity.
Defined.

Lemma extractor_input_failure_writes_nothing_witness :
  (files Demo.w0 !! "data/A/b_tweets.csv"%string = Some "nul"%string
   /\ stream_end (Demo.reader "nul") <> None)
  /\ exists e,
       externaltweets (E := Demo.externals) "data/A/b_tweets.csv" None None None
         Demo.w0 = (Demo.w0, Raise e).
Proof.
  assert (H : files Demo.w0 !! "data/A/b_tweets.csv"%string = Some "nul"%string
              /\ stream_end (Demo.reader "nul") <> None)
    by (split; [vm_compute; reflexivity | discriminate]).
  split; [exact H|].
  apply (extractor_input_failure_writes_nothing (E := Demo.externals)
           "data/A/b_tweets.csv" None None None Demo.w0).
  right. exists "nul"%string. split; [exact (proj1 H)|]. left. exact (proj2 H).
Defined.

Lemma scan_rows_as_a_set_witness :
  scan (stream_of_list Demo.rows) (∅, ∅, ∅)
  = Ok ({[ "111" ]}, {[ "222"; "223" ]}, {[ "333" ]})%string
  /\ scan (stream_of_list rows_shuffled) (∅, ∅, ∅)
     = Ok ({[ "111" ]}, {[ "223"; "222" ]}, {[ "333" ]})%string
  /\ ({[ "111" ]}, {[ "222"; "223" ]}, {[ "333" ]})%string
     = (({[ "111" ]}, {[ "223"; "222" ]}, {[ "333" ]})%string
        : idset * idset * idset).
Proof.
  split; [vm_compute; reflexivity|]. split; [vm_compute; reflexivity|].
  apply (scan_rows_as_a_set (stream_of_list Demo.rows) (stream_of_list rows_shuffled)).
  - vm_compute. reflexivity.
  - vm_compute. reflexivity.
  - intros r. cbn [stream_of_list stream_items Demo.rows rows_shuffled].
    unfold Demo.rows, rows_shuffled. cbn [stream_of_list stream_items].
    rewrite !elem_of_cons, !elem_of_nil. tauto.
Defined.

Lemma extractor_rerun_same_sets_witness :
  externaltweets (E := Demo.externals) "data/A/a_tweets.csv" None None None Demo.w0
  = (Demo.extracted, Ok VNone)
  /\ exists content retweets replies quotes p_rt p_rp p_qt w2,
       outpaths "data/A/a_tweets.csv" None None None = (p_rt, p_rp, p_qt)
       /\ files Demo.w0 !! "data/A/a_tweets.csv"%string = Some content
       /\ files Demo.extracted !! "data/A/a_tweets.csv"%string = Some content
       /\ scan (Demo.reader content) (∅, ∅, ∅) = Ok (retweets, replies, quotes)
       /\ externaltweets (E := Demo.externals) "data/A/a_tweets.csv" None None None
            Demo.extracted = (w2, Ok VNone)
       /\ (forall p X,
             (p, X) ∈ [(p_rt, retweets); (p_rp, replies); (p_qt, quotes)] ->
             exists lines1 lines2,
               lines1 ≡ₚ elements X /\ lines2 ≡ₚ elements X
               /\ files Demo.extracted !! p
                  = Some (rows_text (H := Demo.externals) lines1)
               /\ files w2 !! p = Some (rows_text (H := Demo.externals) lines2))
       /\ (forall p, p <> p_rt -> p <> p_rp -> p <> p_qt ->
             files w2 !! p = files Demo.extracted !! p)
       /\ exists line,
            stdout Demo.extracted = stdout Demo.w0 ++ [line]
            /\ stdout w2 = stdout Demo.extracted ++ [line].
Proof.
  split; [vm_compute; reflexivity|].
  apply (extractor_rerun_same_sets (E := Demo.externals)
           "data/A/a_tweets.csv" Demo.w0 Demo.extracted VNone).
  vm_compute. reflexivity.
Defined.

Lemma hydrator_keeps_partial_records_witness :
  files DemoOutage.w0 !! "data/A/a_tweets.csv_retweets"%string = Some Demo.ten_ids
  /\ stream_end (hydrate (Externals := DemoOutage.externals)
                   (readlines Demo.ten_ids))
     = Some (OtherError "connection reset")
  /\ snd (harvest_external_data (E := DemoOutage.externals)
            "data/A/a_tweets.csv_retweets" DemoOutage.w0)
     = Raise (OtherError "connection reset")
  /\ files (fst (harvest_external_data (E := DemoOutage.externals)
                   "data/A/a_tweets.csv_retweets" DemoOutage.w0))
       !! ("data/A/a_tweets.csv_retweets" +:+ ".jsonl")
     = Some (records_text (H := DemoOutage.externals)
               (stream_items (hydrate (Externals := DemoOutage.externals)
                                (readlines Demo.ten_ids))))
  /\ files (fst (harvest_external_data (E := DemoOutage.externals)
                   "data/A/a_tweets.csv_retweets" DemoOutage.w0))
       !! ("data/A/a_tweets.csv_retweets" +:+ ".log")
     = files DemoOutage.w0 !! ("data/A/a_tweets.csv_retweets" +:+ ".log").
Proof.
  split; [vm_compute; reflexivity|]. split; [vm_compute; reflexivity|].
  apply (hydrator_keeps_partial_records (E := DemoOutage.externals)
           "data/A/a_tweets.csv_retweets" DemoOutage.w0 Demo.ten_ids);
    vm_compute; reflexivity.
Defined.

Lemma hydrator_overwrites_witness :
  harvest_external_data (E := Demo.externals) "data/A/a_tweets.csv_retweets" Demo.w0
  = (Demo.hydrated, Ok VNone)
  /\ harvest_external_data (E := Demo.externals) "data/A/a_tweets.csv_retweets"
       (World (<["data/A/a_tweets.csv_retweets" +:+ ".log" := "old report"%string]>
                 (<["data/A/a_tweets.csv_retweets" +:+ ".jsonl" := "old records"%string]>
                    (files Demo.w0)))
              (stdout Demo.w0))
     = (Demo.hydrated, Ok VNone).
Proof.
  split; [vm_compute; reflexivity|].
  apply (hydrator_overwrites (E := Demo.externals)
           "data/A/a_tweets.csv_retweets" Demo.w0 Demo.hydrated VNone).
  vm_compute. reflexivity.
Defined.

Lemma hydrator_nothing_recovered_witness :
  files DemoOutage.w0 !! "one"%string = Some ("1" +:+ nl)
  /\ hydrate (Externals := DemoOutage.externals) (readlines ("1" +:+ nl)) = SNil
  /\ snd (harvest_external_data (E := DemoOutage.externals) "one" DemoOutage.w0)
     = Ok VNone
  /\ files (fst (harvest_external_data (E := DemoOutage.externals) "one"
                   DemoOutage.w0)) !! ("one" +:+ ".jsonl")
     = Some ""%string
  /\ files (fst (harvest_external_data (E := DemoOutage.externals) "one"
                   DemoOutage.w0)) !! ("one" +:+ ".log")
     = Some ("Total: " +:+ str_int (Z.of_nat (length (readlines ("1" +:+ nl))))
             +:+ ", collected 0, recovered %: "
             +:+ str_float (Externals := DemoOutage.externals) 0 +:+ nl).
Proof.
  split; [vm_compute; reflexivity|]. split; [reflexivity|].
  apply (hydrator_nothing_recovered (E := DemoOutage.externals) "one"
           DemoOutage.w0 ("1" +:+ nl)).
  - reflexivity.
  - vm_compute. reflexivity.
  - discriminate.
  - reflexivity.
Defined.

Lemma not_extractor_output (p : string) :
  endswith "s"%char p = false ->
  ~ ends_with "_retweets" p /\ ~ ends_with "_replies" p /\ ~ ends_with "_quotes" p.
Proof.
  intros Hp. repeat split; intros H;
    apply (ends_with_endswith _ _ "s"%char) in H;
    first [congruence | discriminate | reflexivity].
Qed.

Lemma extraction_walk_keeps_other_files_witness :
  (~ ends_with "_retweets" "data/A/a_tweets.csv"
   /\ ~ ends_with "_replies" "data/A/a_tweets.csv"
   /\ ~ ends_with "_quotes" "data/A/a_tweets.csv")
  /\ files (fst (getfiles (E := Demo.externals) "data"
                   (default_method (E := Demo.externals)) Demo.w0))
       !! "data/A/a_tweets.csv"%string
     = files Demo.w0 !! "data/A/a_tweets.csv"%string.
Proof.
  assert (H : ~ ends_with "_retweets" "data/A/a_tweets.csv"
              /\ ~ ends_with "_replies" "data/A/a_tweets.csv"
              /\ ~ ends_with "_quotes" "data/A/a_tweets.csv")
    by (apply not_extractor_output; reflexivity).
  split; [exact H|]. destruct H as (H1 & H2 & H3).
  apply (extraction_walk_keeps_other_files (E := Demo.externals) "data"
           "data/A/a_tweets.csv" Demo.w0 H1 H2 H3).
Defined.

Lemma not_hydrator_output (p : string) :
  endswith "l"%char p = false -> endswith "g"%char p = false ->
  ~ ends_with ".jsonl" p /\ ~ ends_with ".log" p.
Proof.
  intros Hl Hg. split; intros H.
  - apply (ends_with_endswith _ _ "l"%char) in H;
      first [congruence | discriminate | reflexivity].
  - apply (ends_with_endswith _ _ "g"%char) in H;
      first [congruence | discriminate | reflexivity].
Qed.

Lemma hydration_keeps_other_files_witness :
  files (fst (harvest_external_data (E := Demo.externals)
                "data/A/c_tweets.csv_replies" Demo.hydrated))
    !! "data/A/a_tweets.csv_retweets.log"%string
  = files Demo.hydrated !! "data/A/a_tweets.csv_retweets.log"%string
  /\ (subfolders_of (E := Demo.externals) "data" = Ok ["data/A"]%string
      /\ selected (external_files (E := Demo.externals)) ["data/A"]%string
         = Ok [ "data/A/a_tweets.csv_retweets"; "data/A/b_tweets.csv_replies";
                "data/A/c_tweets.csv_replies" ]%string
      /\ files (fst (harvestfiles (E := Demo.externals) "data"
                       (World (<["data/A/c_tweets.csv_quotes.log" := "kept"%string]>
                                 Demo.disk) [])))
           !! "data/A/c_tweets.csv_quotes.log"%string
         = files (World (<["data/A/c_tweets.csv_quotes.log" := "kept"%string]>
                           Demo.disk) [])
             !! "data/A/c_tweets.csv_quotes.log"%string)
  /\ ((~ ends_with ".jsonl" "data/A/a_tweets.csv_retweets"
       /\ ~ ends_with ".log" "data/A/a_tweets.csv_retweets")
      /\ files (fst (harvestfiles (E := Demo.externals) "data" Demo.w0))
           !! "data/A/a_tweets.csv_retweets"%string
         = files Demo.w0 !! "data/A/a_tweets.csv_retweets"%string).
Proof.
  assert (Hsub : subfolders_of (E := Demo.externals) "data" = Ok ["data/A"]%string)
    by (vm_compute; reflexivity).
  assert (Hsel : selected (external_files (E := Demo.externals)) ["data/A"]%string
                 = Ok [ "data/A/a_tweets.csv_retweets";
                        "data/A/b_tweets.csv_replies";
                        "data/A/c_tweets.csv_replies" ]%string)
    by (vm_compute; reflexivity).
  assert (H : ~ ends_with ".jsonl" "data/A/a_tweets.csv_retweets"
              /\ ~ ends_with ".log" "data/A/a_tweets.csv_retweets")
    by (apply not_hydrator_output; reflexivity).
  split; [|split; [split; [exact Hsub|split; [exact Hsel|]] | split; [exact H|]]].
  - apply (proj1 (hydration_keeps_other_files (E := Demo.externals) Demo.hydrated)
             "data/A/c_tweets.csv_replies" "data/A/a_tweets.csv_retweets.log");
      vm_compute; discriminate.
  - apply (proj1 (proj2 (hydration_keeps_other_files (E := Demo.externals)
                    (World (<["data/A/c_tweets.csv_quotes.log" := "kept"%string]>
                              Demo.disk) [])))
             "data" _ _ "data/A/c_tweets.csv_quotes.log" Hsub Hsel).
    intros f Hf. rewrite !elem_of_cons, elem_of_nil in Hf.
    destruct Hf as [->|[->|[->|[]]]]; split; vm_compute; discriminate.
  - destruct H as [H1 H2].
    apply (proj2 (proj2 (hydration_keeps_other_files (E := Demo.externals) Demo.w0))
             "data" "data/A/a_tweets.csv_retweets" H1 H2).
Defined.


Lemma extractor_outputs_feed_the_hydration_walk_witness :
  has_char slash "a_tweets.csv" = false
  /\ is_tweets_csv "data/A" {| name := "a_tweets.csv"; is_dir := false |} = true
  /\ (let '(p_rt, p_rp, p_qt) :=
        outpaths (entry_path "data/A" {| name := "a_tweets.csv"; is_dir := false |})
          None None None in
      snd (os_path_split p_rt) = "a_tweets.csv" +:+ "_retweets"
      /\ snd (os_path_split p_rp) = "a_tweets.csv" +:+ "_replies"
      /\ snd (os_path_split p_qt) = "a_tweets.csv" +:+ "_quotes")
  /\ is_external_list "data/A"
       {| name := "a_tweets.csv" +:+ "_retweets"; is_dir := false |} = true
  /\ is_external_list "data/A"
       {| name := "a_tweets.csv" +:+ "_replies"; is_dir := false |} = true
  /\ is_external_list "data/A"
       {| name := "a_tweets.csv" +:+ "_quotes"; is_dir := false |} = false
  /\ is_tweets_csv "data/A"
       {| name := "a_tweets.csv" +:+ "_retweets"; is_dir := false |} = false
  /\ is_tweets_csv "data/A"
       {| name := "a_tweets.csv" +:+ "_replies"; is_dir := false |} = false
  /\ is_tweets_csv "data/A"
       {| name := "a_tweets.csv" +:+ "_quotes"; is_dir := false |} = false.
Proof.
  split; [reflexivity|]. split; [reflexivity|].
  apply (extractor_outputs_feed_the_hydration_walk "data/A"
           {| name := "a_tweets.csv"; is_dir := false |} false);
    reflexivity.
Defined.

Lemma walks_skip_hydrator_outputs_witness :
  ends_with ".jsonl" "a_tweets.csv_retweets.jsonl"
  /\ is_tweets_csv "data/A"
       {| name := "a_tweets.csv_retweets.jsonl"; is_dir := false |} = false
  /\ is_external_list "data/A"
       {| name := "a_tweets.csv_retweets.jsonl"; is_dir := false |} = false.
Proof.
  assert (H : ends_with ".jsonl" "a_tweets.csv_retweets.jsonl")
    by (exists "a_tweets.csv_retweets"%string; reflexivity).
  split; [exact H|].
  apply (walks_skip_hydrator_outputs "data/A"
           {| name := "a_tweets.csv_retweets.jsonl"; is_dir := false |}).
  left. exact H.
Defined.

Lemma script_last_call_is_unprotected_witness :
  subfolders_of (E := DemoScript.externals) "./demodata"
  = Ok ["./demodata/dataset_A"]%string
  /\ selected (external_files (E := DemoScript.externals))
       ["./demodata/dataset_A"]%string
     = Ok [replies_list]
  /\ files (World ∅ []) !! replies_list = None
  /\ snd (hydrate_py (E := DemoScript.externals) (World ∅ []))
     = Raise (FileNotFoundError replies_list)
  /\ files DemoScript.w0 !! replies_list = Some ""%string
  /\ snd (hydrate_py (E := DemoScript.externals) DemoScript.w0)
     = Raise ZeroDivisionError.
Proof.
  assert (Hsub : subfolders_of (E := DemoScript.externals) "./demodata"
                 = Ok ["./demodata/dataset_A"]%string) by (vm_compute; reflexivity).
  assert (Hsel : selected (external_files (E := DemoScript.externals))
                   ["./demodata/dataset_A"]%string
                 = Ok [replies_list]) by (vm_compute; reflexivity).
  split; [exact Hsub|]. split; [exact Hsel|].
  split; [reflexivity|]. split.
  - apply (script_last_call_is_unprotected (E := DemoScript.externals)
             (World ∅ []) _ _ Hsub Hsel eq_refl). reflexivity.
  - split; [vm_compute; reflexivity|].
    apply (script_last_call_is_unprotected (E := DemoScript.externals)
             DemoScript.w0 _ _ Hsub Hsel eq_refl).
    + vm_compute. reflexivity.
    + reflexivity.
Defined.
